(** * python-weather-app: the retrieval and aggregation pipeline

    A shallow embedding of [src/api_data.py], [src/data_parser.py] and
    [src/weather.py], and the properties of the pipeline
    geocode -> forecast -> parse -> per-day aggregation -> presentation.

    Python values are embedded as the JSON-shaped dynamic values the code
    handles ([pyval]); a Python [float] is an IEEE-754 binary64 number
    ([spec_float] at precision 53, exponent bound 1024); exceptions are
    explicit results; objects mutated in place ([API], [WeatherData]) are
    threaded as explicit state; the two external HTTP services are an
    oracle whose calls are recorded in a trace. *)

From Stdlib Require Import ZArith Lia Ascii String Floats.SpecFloat.
From stdpp Require Import gmap strings list fin_maps.

Set Warnings "-register-all".

(** ** Exceptions *)

(** The exception classes the pipeline can raise; [RequestException]
    stands for whatever [requests] raises on a failed call. *)
Inductive exn_class :=
| AttributeError | TypeError | IndexError | KeyError | ValueError
| ConnectionError | OverflowError | ZeroDivisionError
| RequestException.

(** An exception: its class and, when the repository's code builds the
    message itself, that message ([None] for the interpreter's own texts).
    The [from e] cause chain is not kept. *)
Record exn := Exn { exn_cls : exn_class; exn_msg : option string }.

Definition builtin (c : exn_class) : exn := Exn c None.

Definition exn_name (c : exn_class) : string :=
  match c with
  | AttributeError => "AttributeError"
  | TypeError => "TypeError"
  | IndexError => "IndexError"
  | KeyError => "KeyError"
  | ValueError => "ValueError"
  | ConnectionError => "ConnectionError"
  | OverflowError => "OverflowError"
  | ZeroDivisionError => "ZeroDivisionError"
  | RequestException => "RequestException"
  end.

Inductive result (A : Type) :=
| Ok (a : A)
| Raise (e : exn).
Arguments Ok {A} a.
Arguments Raise {A} e.

Definition bindR {A B} (r : result A) (k : A -> result B) : result B :=
  match r with
  | Ok a => k a
  | Raise e => Raise e
  end.

Notation "'let!' x ':=' e 'in' k" := (bindR e (fun x => k))
  (at level 10, x name, e at level 100, k at level 200, only parsing).

Definition is_ok {A} (r : result A) : bool :=
  match r with Ok _ => true | Raise _ => false end.

(** State threaded through a method that mutates [self]; the state is kept
    when the method raises, as the object is in Python. *)
Definition M (S A : Type) : Type := S -> S * result A.

Definition ret {S A} (a : A) : M S A := fun s => (s, Ok a).
Definition raise {S A} (e : exn) : M S A := fun s => (s, Raise e).
Definition lift {S A} (r : result A) : M S A := fun s => (s, r).
Definition getS {S} : M S S := fun s => (s, Ok s).
Definition putS {S} (s' : S) : M S unit := fun _ => (s', Ok tt).

Definition bindM {S A B} (m : M S A) (k : A -> M S B) : M S B :=
  fun s => match m s with
           | (s', Ok a) => k a s'
           | (s', Raise e) => (s', Raise e)
           end.

(** [try: m  except Exception as e: h e] *)
Definition try_except {S A} (m : M S A) (h : exn -> M S A) : M S A :=
  fun s => match m s with
           | (s', Ok a) => (s', Ok a)
           | (s', Raise e) => h e s'
           end.

Notation "'let*' x ':=' e 'in' k" := (bindM e (fun x => k))
  (at level 10, x name, e at level 100, k at level 200, only parsing).

(** ** Python floats: IEEE-754 binary64 *)

Module Float.
Local Open Scope Z_scope.

Definition prec : Z := 53.
Definition emax : Z := 1024.

Definition add : spec_float -> spec_float -> spec_float := SFadd prec emax.
Definition div : spec_float -> spec_float -> spec_float := SFdiv prec emax.
Definition leb : spec_float -> spec_float -> bool := SFleb.

(** An integer as an exact (not normalised) significand with exponent 0. *)
Definition raw_of_Z (z : Z) : spec_float :=
  match z with
  | Z0 => S754_zero false
  | Zpos p => S754_finite false p 0
  | Zneg p => S754_finite true p 0
  end.

(** [float(z)]: the nearest double, ties to even. *)
Definition of_Z (z : Z) : spec_float := binary_normalize prec emax z 0 false.

Definition is_infinite (x : spec_float) : bool :=
  match x with S754_infinity _ => true | _ => false end.

Definition is_zero (x : spec_float) : bool :=
  match x with S754_zero _ => true | _ => false end.

(** [int(x)] on a finite float: truncation towards zero. *)
Definition trunc (s : bool) (m : positive) (e : Z) : Z :=
  let a := if 0 <=? e then Zpos m * 2 ^ e else Zpos m / 2 ^ (- e) in
  if s then - a else a.

(** [n / d] rounded to the nearest integer, ties to the even one
    ([d] positive, [n] non-negative). *)
Definition round_half_even_div (n d : Z) : Z :=
  let q := n / d in
  match 2 * (n mod d) ?= d with
  | Lt => q
  | Gt => q + 1
  | Eq => if Z.even q then q else q + 1
  end.

(** The text ["{:.2f}".format(x)] produces: a sign and the decimal digits
    with two places, kept as the number of hundredths they spell; or
    [inf], [-inf], [nan]. *)
Inductive fixed2 :=
| F2_dec (neg : bool) (hundredths : N)
| F2_inf (neg : bool)
| F2_nan.

(** ["{:.2f}".format(x)]: the exact binary value [m * 2^e] is rounded to
    two decimal places, ties to even. *)
Definition format_2f (x : spec_float) : fixed2 :=
  match x with
  | S754_zero s => F2_dec s 0%N
  | S754_infinity s => F2_inf s
  | S754_nan => F2_nan
  | S754_finite s m e =>
      F2_dec s (Z.to_N (if 0 <=? e then 100 * Zpos m * 2 ^ e
                        else round_half_even_div (100 * Zpos m) (2 ^ (- e))))
  end.

(** [float(text)] on such a text: the double nearest to the decimal it
    spells (the correctly rounded quotient of hundredths by 100). *)
Definition of_fixed2 (t : fixed2) : spec_float :=
  match t with
  | F2_dec s N0 => S754_zero s
  | F2_dec s (Npos h) => div (S754_finite s h 0) (S754_finite false 100 0)
  | F2_inf s => S754_infinity s
  | F2_nan => S754_nan
  end.

(** The double written [h/100] with two decimals, e.g. [dec2 6517] is
    [65.17]. *)
Definition dec2 (h : Z) : spec_float :=
  of_fixed2 (F2_dec (h <? 0) (Z.to_N (Z.abs h))).
End Float.

(** ** Python values, as far as JSON and the pipeline need them *)

Inductive pyval :=
| PNone
| PBool (b : bool)
| PInt (z : Z)
| PFloat (f : spec_float)
| PStr (s : string)
| PList (l : list pyval)
| PDict (d : gmap string pyval).

(** [v.get(key)]: only a dict has the method; an absent key gives [None]. *)
Definition py_get (v : pyval) (key : string) : result pyval :=
  match v with
  | PDict d => Ok (default PNone (d !! key))
  | _ => Raise (builtin AttributeError)
  end.

(** [v[i]] for an index [i >= 0]. A dict decoded from JSON has string keys
    only, so an integer key is never found. *)
Definition py_getitem (v : pyval) (i : nat) : result pyval :=
  match v with
  | PList l =>
      match l !! i with
      | Some x => Ok x
      | None => Raise (builtin IndexError)
      end
  | PStr s =>
      match String.get i s with
      | Some c => Ok (PStr (String c EmptyString))
      | None => Raise (builtin IndexError)
      end
  | PDict _ => Raise (builtin KeyError)
  | PNone | PBool _ | PInt _ | PFloat _ => Raise (builtin TypeError)
  end.

(** [v[k::]]. The pipeline reaches it only after [v[0]] .. [v[23]] have
    been read, hence on a list or a text. *)
Definition py_slice_from (v : pyval) (k : nat) : result pyval :=
  match v with
  | PList l => Ok (PList (drop k l))
  | PStr s => Ok (PStr (String.substring k (String.length s - k) s))
  | _ => Raise (builtin TypeError)
  end.

(** [float(z)] as the interpreter does it for mixed arithmetic. *)
Definition py_float_of_int (z : Z) : result spec_float :=
  let f := Float.of_Z z in
  if Float.is_infinite f then Raise (builtin OverflowError) else Ok f.

Definition Z_of_bool (b : bool) : Z := if b then 1%Z else 0%Z.

(** The numeric reading of a value: [bool] is a subclass of [int]. *)
Inductive number := NumInt (z : Z) | NumFloat (f : spec_float).

Definition as_number (v : pyval) : option number :=
  match v with
  | PBool b => Some (NumInt (Z_of_bool b))
  | PInt z => Some (NumInt z)
  | PFloat f => Some (NumFloat f)
  | _ => None
  end.

(** [a + b] *)
Definition py_add (a b : pyval) : result pyval :=
  match as_number a, as_number b with
  | Some (NumInt x), Some (NumInt y) => Ok (PInt (x + y))
  | Some (NumInt x), Some (NumFloat g) =>
      let! f := py_float_of_int x in Ok (PFloat (Float.add f g))
  | Some (NumFloat f), Some (NumInt y) =>
      let! g := py_float_of_int y in Ok (PFloat (Float.add f g))
  | Some (NumFloat f), Some (NumFloat g) => Ok (PFloat (Float.add f g))
  | _, _ =>
      match a, b with
      | PStr s, PStr t => Ok (PStr (s +:+ t))
      | PList l, PList k => Ok (PList (l ++ k))
      | _, _ => Raise (builtin TypeError)
      end
  end.

(** [a / b]: true division; of two ints it is the correctly rounded
    quotient. *)
Definition py_truediv (a b : pyval) : result pyval :=
  match as_number a, as_number b with
  | Some (NumInt x), Some (NumInt y) =>
      if (y =? 0)%Z then Raise (builtin ZeroDivisionError)
      else
        let q := Float.div (Float.raw_of_Z x) (Float.raw_of_Z y) in
        if Float.is_infinite q then Raise (builtin OverflowError)
        else Ok (PFloat q)
  | Some x, Some y =>
      let! f := match x with NumInt z => py_float_of_int z | NumFloat f => Ok f end in
      let! g := match y with NumInt z => py_float_of_int z | NumFloat g => Ok g end in
      if Float.is_zero g then Raise (builtin ZeroDivisionError)
      else Ok (PFloat (Float.div f g))
  | _, _ => Raise (builtin TypeError)
  end.

(** ["{:.2f}".format(v)] *)
Definition py_format_2f (v : pyval) : result Float.fixed2 :=
  match as_number v with
  | Some (NumInt z) => let! f := py_float_of_int z in Ok (Float.format_2f f)
  | Some (NumFloat f) => Ok (Float.format_2f f)
  | None => Raise (builtin TypeError)
  end.

(** [float(text)] for a text made by [py_format_2f]. *)
Definition py_float (t : Float.fixed2) : pyval := PFloat (Float.of_fixed2 t).

(** [int(text)], as CPython 3.11 reads a base-10 literal. A Python text
    is given by its UTF-8 bytes. Every code point from 127 on that is a
    blank becomes a space and every one that is a decimal digit becomes
    that digit (Unicode 14.0); then the ASCII blanks are stripped at both
    ends, an optional sign is read, then digits with single underscores
    between them, 4300 digits at most. Anything else is rejected. *)
Module IntLit.
Local Open Scope Z_scope.

(** The code points of a UTF-8 text; [pending] continuation bytes are
    awaited for the code point begun in [acc]. *)
Fixpoint decode (pending : nat) (acc : Z) (l : list ascii) : option (list Z) :=
  match l with
  | [] => match pending with O => Some [] | S _ => None end
  | b :: t =>
      let n := Z.of_nat (nat_of_ascii b) in
      match pending with
      | O =>
          if n <? 128 then cons n <$> decode 0 0 t
          else if (192 <=? n) && (n <? 224) then decode 1 (n - 192) t
          else if (224 <=? n) && (n <? 240) then decode 2 (n - 224) t
          else if (240 <=? n) && (n <? 248) then decode 3 (n - 240) t
          else None
      | S p =>
          if (128 <=? n) && (n <? 192) then
            let acc' := 64 * acc + (n - 128) in
            match p with
            | O => cons acc' <$> decode 0 0 t
            | S _ => decode p acc' t
            end
          else None
      end
  end.

(** The blanks [int] strips among the ASCII characters: tab, line feed,
    vertical tab, form feed, carriage return and space. *)
Definition ascii_space (c : Z) : bool :=
  ((9 <=? c) && (c <=? 13)) || (c =? 32).

(** The blanks from code point 127 on. *)
Definition unicode_space (c : Z) : bool :=
  (c =? 133) || (c =? 160) || (c =? 5760)
  || ((8192 <=? c) && (c <=? 8202))
  || (c =? 8232) || (c =? 8233) || (c =? 8239) || (c =? 8287)
  || (c =? 12288).

(** The code points of the digit zero in each script of Unicode 14.0; the
    nine code points after each are its digits one to nine. *)
Definition zeros : list Z :=
  [48; 1632; 1776; 1984; 2406; 2534; 2662; 2790; 2918; 3046; 3174; 3302;
   3430; 3558; 3664; 3792; 3872; 4160; 4240; 6112; 6160; 6470; 6608; 6784;
   6800; 6992; 7088; 7232; 7248; 42528; 43216; 43264; 43472; 43504; 43600;
   44016; 65296; 66720; 68912; 69734; 69872; 69942; 70096; 70384; 70736;
   70864; 71248; 71360; 71472; 71904; 72016; 72784; 73040; 73120; 92768;
   92864; 93008; 120782; 120792; 120802; 120812; 120822; 123200; 123632;
   125264; 130032].

Definition digit_of (c : Z) : option Z :=
  (fun z => c - z) <$> List.find (fun z => (z <=? c) && (c <? z + 10)) zeros.

Inductive token :=
| Space
| Digit (d : Z)
| Sign (negative : bool)
| Underscore
| Other.

Definition token_of (c : Z) : token :=
  if c <? 127 then
    if ascii_space c then Space
    else if (48 <=? c) && (c <=? 57) then Digit (c - 48)
    else if c =? 43 then Sign false
    else if c =? 45 then Sign true
    else if c =? 95 then Underscore
    else Other
  else if unicode_space c then Space
  else match digit_of c with
       | Some d => Digit d
       | None => Other
       end.

Fixpoint strip_left (l : list token) : list token :=
  match l with
  | Space :: t => strip_left t
  | _ => l
  end.

Definition strip (l : list token) : list token :=
  rev (strip_left (rev (strip_left l))).

(** The digits, [count] of them read so far. *)
Fixpoint digits (acc : Z) (count : nat) (after_digit : bool) (l : list token)
  : option Z :=
  match l with
  | [] => if after_digit && (count <=? 4300)%nat then Some acc else None
  | Digit d :: t => digits (10 * acc + d) (S count) true t
  | Underscore :: t => if after_digit then digits acc count false t else None
  | _ => None
  end.

Definition parse (s : string) : option Z :=
  match decode 0 0 (String.list_ascii_of_string s) with
  | None => None
  | Some cps =>
      match strip (token_of <$> cps) with
      | Sign true :: t => Z.opp <$> digits 0 0 false t
      | Sign false :: t => digits 0 0 false t
      | l => digits 0 0 false l
      end
  end.
End IntLit.

Definition py_int (v : pyval) : result Z :=
  match v with
  | PInt z => Ok z
  | PBool b => Ok (Z_of_bool b)
  | PFloat (S754_zero _) => Ok 0%Z
  | PFloat (S754_finite s m e) => Ok (Float.trunc s m e)
  | PFloat (S754_infinity _) => Raise (builtin OverflowError)
  | PFloat S754_nan => Raise (builtin ValueError)
  | PStr s =>
      match IntLit.parse s with
      | Some z => Ok z
      | None => Raise (builtin ValueError)
      end
  | PNone | PList _ | PDict _ => Raise (builtin TypeError)
  end.

(** [range(n)] *)
Definition py_range (n : Z) : list nat := seq 0 (Z.to_nat n).

(** ** [data_parser.py] *)

Module Parser.
Record t := mk { hourly_data : pyval; daily_data : pyval }.

(** [Parser.__init__] *)
Definition init (api_data : pyval) : result t :=
  let! hourly := py_get api_data "hourly" in
  let! daily := py_get api_data "daily" in
  Ok {| hourly_data := hourly; daily_data := daily |}.

Definition get_humidity (self : t) : result pyval :=
  py_get (hourly_data self) "relative_humidity_2m".

Definition get_cloud_cover (self : t) : result pyval :=
  py_get (hourly_data self) "cloud_cover".

Definition get_time (self : t) : result pyval :=
  py_get (daily_data self) "time".

Definition get_max_temp (self : t) : result pyval :=
  py_get (daily_data self) "temperature_2m_max".

Definition get_min_temp (self : t) : result pyval :=
  py_get (daily_data self) "temperature_2m_min".

Definition get_uv_index (self : t) : result pyval :=
  py_get (daily_data self) "uv_index_max".
End Parser.

(** ** [weather.py] *)

Module DayWeather.
Record t := mk {
  max_temp : pyval;
  min_temp : pyval;
  total_humidity : pyval;
  uv_index : pyval;
  time : pyval;
  cloud_cover : pyval
}.

(** [DayWeather.__init__]: every attribute is [None]. *)
Definition init : t := mk PNone PNone PNone PNone PNone PNone.

Definition get_max_temp (self : t) : pyval := max_temp self.
Definition get_min_temp (self : t) : pyval := min_temp self.
Definition get_total_humidity (self : t) : pyval := total_humidity self.
Definition get_uv_index (self : t) : pyval := uv_index self.
Definition get_time (self : t) : pyval := time self.
Definition get_cloud_cover (self : t) : pyval := cloud_cover self.
End DayWeather.

Module WeatherData.
Record t := mk {
  days_num : Z;
  time : pyval;
  uv_index : pyval;
  cloud_cover : pyval;
  max_temp : pyval;
  min_temp : pyval;
  humiditys : pyval;
  days_list : list DayWeather.t
}.

(** [WeatherData.__init__] *)
Definition init (days_num : pyval) (parsed_data : Parser.t) : result t :=
  let! n := py_int days_num in
  let! tm := Parser.get_time parsed_data in
  let! uv := Parser.get_uv_index parsed_data in
  let! cc := Parser.get_cloud_cover parsed_data in
  let! mx := Parser.get_max_temp parsed_data in
  let! mn := Parser.get_min_temp parsed_data in
  let! hs := Parser.get_humidity parsed_data in
  Ok {| days_num := n; time := tm; uv_index := uv; cloud_cover := cc;
        max_temp := mx; min_temp := mn; humiditys := hs; days_list := [] |}.

(** The loop [for hour in range(24): total += humiditys[hour]]. *)
Fixpoint sum_hours (humiditys : pyval) (total : pyval) (hours : list nat)
  : result pyval :=
  match hours with
  | [] => Ok total
  | hour :: rest =>
      let! x := py_getitem humiditys hour in
      let! total' := py_add total x in
      sum_hours humiditys total' rest
  end.

(** [calc_total_humidity]: it reads [self.humiditys] and changes nothing. *)
Definition calc_total_humidity (self : t) : result pyval :=
  let! total_humidity_avg := sum_hours (humiditys self) (PInt 0) (py_range 24) in
  let! mean := py_truediv total_humidity_avg (PInt 24) in
  let! text := py_format_2f mean in
  Ok (py_float text).

Definition append_day (d : DayWeather.t) (self : t) : t :=
  mk (days_num self) (time self) (uv_index self) (cloud_cover self)
     (max_temp self) (min_temp self) (humiditys self) (days_list self ++ [d]).

Definition set_humiditys (h : pyval) (self : t) : t :=
  mk (days_num self) (time self) (uv_index self) (cloud_cover self)
     (max_temp self) (min_temp self) h (days_list self).

(** One pass of the body of the loop of [create_days_list]. *)
Definition day_step (i : nat) : M t unit :=
  let* self := getS in
  let* mx := lift (py_getitem (max_temp self) i) in
  let* mn := lift (py_getitem (min_temp self) i) in
  let* tm := lift (py_getitem (time self) i) in
  let* uv := lift (py_getitem (uv_index self) i) in
  let* cc := lift (py_getitem (cloud_cover self) i) in
  let* th := lift (calc_total_humidity self) in
  let new_day := DayWeather.mk mx mn th uv tm cc in
  let* _ := putS (append_day new_day self) in
  let* self := getS in
  let* rest := lift (py_slice_from (humiditys self) 24) in
  putS (set_humiditys rest self).

Fixpoint day_loop (indices : list nat) : M t unit :=
  match indices with
  | [] => ret tt
  | i :: rest => let* _ := day_step i in day_loop rest
  end.

(** [create_days_list]: the list returned is the object's own
    [days_list], as it stands when the method returns. *)
Definition create_days_list : M t (list DayWeather.t) :=
  let* self := getS in
  let* _ := day_loop (py_range (days_num self)) in
  let* self := getS in
  ret (days_list self).
End WeatherData.

(** A dict literal, keys in the order written. *)
Definition dict_of (kvs : list (string * pyval)) : gmap string pyval :=
  list_to_map kvs.

(** The dict [day_element] built for one day in [make_data_ready]. *)
Definition day_element (country city : pyval) (day : DayWeather.t)
  : gmap string pyval :=
  dict_of [("country", country);
           ("city", city);
           ("time", DayWeather.get_time day);
           ("max_temp", DayWeather.get_max_temp day);
           ("min_temp", DayWeather.get_min_temp day);
           ("humidity", DayWeather.get_total_humidity day);
           ("uv_index", DayWeather.get_uv_index day);
           ("cloud_cover", DayWeather.get_cloud_cover day)].

(** [make_data_ready]: one [day_element] per day, appended in order. *)
Definition make_data_ready (days_list : list DayWeather.t) (country city : pyval)
  : list (gmap string pyval) :=
  day_element country city <$> days_list.

(** ** [api_data.py] *)

(** What [requests.get(url, params=params)] sends. *)
Record request := Request { url : string; params : gmap string pyval }.

(** What [requests.get(...).json()] does: it raises (no connection, a body
    that is not JSON), with the text [str(e)] of the exception, or returns
    the decoded body. *)
Inductive outcome :=
| Fails (text : string)
| Json (body : pyval).

(** The external services: the answer to the [n]-th call made, which may
    change from one call to the next. *)
Definition oracle := nat -> request -> outcome.

(** The requests made so far, oldest first. *)
Definition trace := list request.

Module API.
Record t := mk {
  location : string;
  days_num : pyval;
  latitude : pyval;
  longitude : pyval;
  city : pyval;
  country : pyval;
  result : pyval
}.

(** [API.__init__] *)
Definition init (location : string) (days_num : pyval) : t :=
  mk location days_num PNone PNone PNone PNone PNone.

Definition set_city (v : pyval) (s : t) : t :=
  mk (location s) (days_num s) (latitude s) (longitude s) v (country s) (result s).
Definition set_country (v : pyval) (s : t) : t :=
  mk (location s) (days_num s) (latitude s) (longitude s) (city s) v (result s).
Definition set_latitude (v : pyval) (s : t) : t :=
  mk (location s) (days_num s) v (longitude s) (city s) (country s) (result s).
Definition set_longitude (v : pyval) (s : t) : t :=
  mk (location s) (days_num s) (latitude s) v (city s) (country s) (result s).
Definition set_result (v : pyval) (s : t) : t :=
  mk (location s) (days_num s) (latitude s) (longitude s) (city s) (country s) v.

Definition geo_api_url : string :=
  "https://geocoding-api.open-meteo.com/v1/search".
Definition weather_api_url : string :=
  "https://api.open-meteo.com/v1/forecast".

Definition geo_params (self : t) : gmap string pyval :=
  dict_of [("name", PStr (location self));
           ("count", PInt 1);
           ("language", PStr "en");
           ("format", PStr "json")].

Definition weather_params (self : t) : gmap string pyval :=
  dict_of [("latitude", latitude self);
           ("longitude", longitude self);
           ("hourly", PStr "relative_humidity_2m,cloud_cover");
           ("daily", PStr "temperature_2m_max,temperature_2m_min,uv_index_max");
           ("timezone", PStr "auto");
           ("forecast_days", days_num self)].

Definition geo_request (self : t) : request :=
  Request geo_api_url (geo_params self).
Definition weather_request (self : t) : request :=
  Request weather_api_url (weather_params self).

Section Methods.
Context (http : oracle).

(** The object and the trace of external calls are the state. *)
Definition state : Type := t * trace.

Definition self : M state t := fun s => (s, Ok (fst s)).
Definition update (f : t -> t) : M state unit :=
  fun s => ((f (fst s), snd s), Ok tt).

(** [requests.get(url, params).json()] *)
Definition requests_get_json (r : request) : M state pyval :=
  fun s =>
    let s' := (fst s, snd s ++ [r]) in
    match http (length (snd s)) r with
    | Fails text => (s', Raise (Exn RequestException (Some text)))
    | Json body => (s', Ok body)
    end.

Definition location_not_found (location : string) : exn :=
  Exn ValueError (Some ("Location not found: " +:+ location)).

(** [get_geocode] *)
Definition get_geocode : M state unit :=
  try_except
    (let* me := self in
     let* res := requests_get_json (geo_request me) in
     let* results := lift (py_get res "results") in
     let* geo_data := lift (py_getitem results 0) in
     let* v := lift (py_get geo_data "name") in
     let* _ := update (set_city v) in
     let* v := lift (py_get geo_data "country") in
     let* _ := update (set_country v) in
     let* v := lift (py_get geo_data "latitude") in
     let* _ := update (set_latitude v) in
     let* v := lift (py_get geo_data "longitude") in
     update (set_longitude v))
    (fun _ =>
       let* me := self in
       raise (location_not_found (location me))).

Definition text_of_exn (e : exn) : string := default "" (exn_msg e).

(** [get_weather] *)
Definition get_weather : M state unit :=
  try_except
    (let* me := self in
     let* res := requests_get_json (weather_request me) in
     update (set_result res))
    (fun e =>
       raise (Exn ConnectionError
                  (Some ("Failed to fetch weather data: " +:+ text_of_exn e)))).

Definition get_city_name : M state pyval :=
  let* _ := get_geocode in
  let* me := self in
  ret (city me).

Definition get_country_name : M state pyval :=
  let* _ := get_geocode in
  let* me := self in
  ret (country me).

Definition get_api_data : M state pyval :=
  let* _ := get_geocode in
  let* _ := get_weather in
  let* me := self in
  ret (result me).
End Methods.
End API.

(** ** The entry point, [weather.get_weather] *)

Section Pipeline.
Context (http : oracle).

Definition pipeline (days_num : pyval) : M API.state (list (gmap string pyval)) :=
  let* data := API.get_api_data http in
  let* parsed_data := lift (Parser.init data) in
  let* get_weather_data := lift (WeatherData.init days_num parsed_data) in
  let* days_list := lift (snd (WeatherData.create_days_list get_weather_data)) in
  let* country := API.get_country_name http in
  let* city := API.get_city_name http in
  ret (make_data_ready days_list country city).

(** [get_weather(location, days_num)], started with the calls [tr] already
    made: the calls made by the end and the value returned. *)
Definition get_weather (location : string) (days_num : pyval)
  : M trace (list (gmap string pyval)) :=
  fun tr =>
    let api_obj := API.init location days_num in
    let '((_, tr'), r) := pipeline days_num (api_obj, tr) in
    (tr', r).
End Pipeline.

(** ** Reference definitions used to state the properties *)

Definition Zsum (xs : list Z) : Z := foldr Z.add 0%Z xs.

(** The arithmetic mean of [xs] rounded to two decimal places, as a number
    of hundredths (ties to the even hundredth). *)
Definition mean2 (xs : list Z) : Z :=
  Float.round_half_even_div (100 * Zsum xs) (Z.of_nat (length xs)).

(** The hourly readings of day [i]: positions [24*i] to [24*i+23]. *)
Definition day_slice (hs : list Z) (i : nat) : list Z :=
  take 24 (drop (24 * i) hs).

(** An integer percentage, as the forecast service sends relative
    humidity. *)
Definition percent (z : Z) : Prop := (0 <= z <= 100)%Z.

Definition percentb (z : Z) : bool := ((0 <=? z) && (z <=? 100))%Z.

(** Python's [0 <= v <= 100] on a float. *)
Definition in_0_100 (v : pyval) : bool :=
  match v with
  | PFloat f => Float.leb (Float.of_Z 0) f && Float.leb f (Float.of_Z 100)
  | _ => false
  end.

Definition sf_eqb (x y : spec_float) : bool :=
  match x, y with
  | S754_zero s, S754_zero t => Bool.eqb s t
  | S754_infinity s, S754_infinity t => Bool.eqb s t
  | S754_nan, S754_nan => true
  | S754_finite s m e, S754_finite t n f =>
      Bool.eqb s t && Pos.eqb m n && Z.eqb e f
  | _, _ => false
  end.

(** What [calc_total_humidity] does once the 24 readings are summed. *)
Definition humidity_of_total (total : pyval) : result pyval :=
  let! mean := py_truediv total (PInt 24) in
  let! text := py_format_2f mean in
  Ok (py_float text).

(** The check, for one integer total, that the float computation returns
    the double written as the mean rounded to two decimals, and that this
    double lies in [0, 100]. *)
Definition total_ok (s : Z) : bool :=
  match humidity_of_total (PInt s) with
  | Ok (PFloat f) =>
      sf_eqb f (Float.dec2 (Float.round_half_even_div (100 * s) 24))
      && in_0_100 (PFloat f)
  | _ => false
  end.

(** The record [create_days_list] builds for day [i] out of list-valued
    series and integer readings [slice]. *)
Definition day_record (tm uv cc mx mn : list pyval) (slice : list Z) (i : nat)
  : DayWeather.t :=
  DayWeather.mk (default PNone (mx !! i)) (default PNone (mn !! i))
                (PFloat (Float.dec2 (mean2 slice)))
                (default PNone (uv !! i)) (default PNone (tm !! i))
                (default PNone (cc !! i)).

(** The records of [k] consecutive days from day [i] on, the readings [hs]
    being those not yet consumed. *)
Fixpoint day_records (tm uv cc mx mn : list pyval) (hs : list Z) (i k : nat)
  : list DayWeather.t :=
  match k with
  | O => []
  | S k' => day_record tm uv cc mx mn (take 24 hs) i
            :: day_records tm uv cc mx mn (drop 24 hs) (S i) k'
  end.

(** An aggregator whose six series are lists, the humidity one of
    integers. *)
Definition weather_data (n : Z) (tm uv cc mx mn : list pyval) (hs : list Z)
    (done : list DayWeather.t) : WeatherData.t :=
  WeatherData.mk n (PList tm) (PList uv) (PList cc) (PList mx) (PList mn)
                 (PList (PInt <$> hs)) done.

(** The length of the shortest of the five series read by day index. *)
Definition indexed_len (tm uv cc mx mn : list pyval) : nat :=
  Nat.min (length mx)
    (Nat.min (length mn)
       (Nat.min (length tm) (Nat.min (length uv) (length cc)))).

(** The first entry of the result list of a geocoding answer, when the
    answer is an object whose [results] is a list that starts with an
    object: the only answers [get_geocode] can use. *)
Definition first_result (o : outcome) : option (gmap string pyval) :=
  match o with
  | Json (PDict d) =>
      match d !! "results" with
      | Some (PList (PDict g :: _)) => Some g
      | _ => None
      end
  | _ => None
  end.

(** The answers the specification lists as unresolved: the request failed,
    the body is not an object, or it holds no result. *)
Definition no_results (o : outcome) : bool :=
  match o with
  | Fails _ => true
  | Json (PDict d) =>
      match d !! "results" with
      | None | Some PNone | Some (PList []) => true
      | _ => false
      end
  | Json _ => true
  end.

(** The client once [get_geocode] has stored the entry [g]. *)
Definition resolved (g : gmap string pyval) (me : API.t) : API.t :=
  API.mk (API.location me) (API.days_num me)
         (default PNone (g !! "latitude")) (default PNone (g !! "longitude"))
         (default PNone (g !! "name")) (default PNone (g !! "country"))
         (API.result me).


Definition forecast_body (tm uv cc mx mn : list pyval) (hs : list Z) : pyval :=
  PDict (dict_of
    [("hourly", PDict (dict_of [("relative_humidity_2m", PList (PInt <$> hs));
                                ("cloud_cover", PList cc)]));
     ("daily", PDict (dict_of [("time", PList tm);
                               ("temperature_2m_max", PList mx);
                               ("temperature_2m_min", PList mn);
                               ("uv_index_max", PList uv)]))]).

Definition is_geocode_call (r : request) : bool :=
  String.eqb (url r) API.geo_api_url.

Definition is_forecast_call (r : request) : bool :=
  String.eqb (url r) API.weather_api_url.

(** ** The data of [tests/test_weather.py], for the examples *)

Module Fixture.
Definition humidity : list Z :=
  [79; 84; 85; 85; 86; 86; 81; 78; 70; 57; 49; 42;
   40; 38; 34; 35; 56; 63; 68; 69; 71; 72; 76; 60]%Z.

Definition cloud_cover : list pyval :=
  PInt <$> [42; 20; 6; 2; 98; 100; 44; 100; 100; 100; 100; 100;
            100; 23; 0; 0; 0; 0; 0; 0; 11; 63; 100; 100]%Z.

Definition time : list pyval := [PStr "2025-01-21"].
Definition max_temp : list pyval := [PFloat (Float.dec2 2130)].
Definition min_temp : list pyval := [PFloat (Float.dec2 1210)].
Definition uv_index : list pyval := [PFloat (Float.dec2 420)].

Definition payload : pyval :=
  forecast_body time uv_index cloud_cover max_temp min_temp humidity.

(** [WeatherData(days, parsed)] on that payload. *)
Definition weather (days : Z) : WeatherData.t :=
  weather_data days time uv_index cloud_cover max_temp min_temp humidity [].

(** Two days asked and two entries in each daily series, but one day of
    hourly readings. *)
Definition weather_short : WeatherData.t :=
  weather_data 2 (time ++ [PStr "2025-01-22"]) (uv_index ++ uv_index)
               cloud_cover (max_temp ++ max_temp) (min_temp ++ min_temp)
               humidity [].

(** The payload without the [cloud_cover] series, and without the
    [hourly] group. *)
Definition payload_no_cloud_cover : pyval :=
  PDict (dict_of
    [("hourly", PDict (dict_of [("relative_humidity_2m", PList (PInt <$> humidity))]));
     ("daily", PDict (dict_of [("time", PList time);
                               ("temperature_2m_max", PList max_temp);
                               ("temperature_2m_min", PList min_temp);
                               ("uv_index_max", PList uv_index)]))]).

Definition payload_no_hourly : pyval :=
  PDict (dict_of
    [("daily", PDict (dict_of [("time", PList time);
                               ("temperature_2m_max", PList max_temp);
                               ("temperature_2m_min", PList min_temp);
                               ("uv_index_max", PList uv_index)]))]).

Definition haifa : gmap string pyval :=
  dict_of [("name", PStr "Haifa"); ("country", PStr "Israel");
           ("latitude", PFloat (Float.dec2 3281));
           ("longitude", PFloat (Float.dec2 3500))].

Definition geocoding_body : pyval :=
  PDict (dict_of [("results", PList [PDict haifa])]).

(** Services that know Haifa and answer every forecast with [payload]. *)
Definition http : oracle :=
  fun _ r => if is_geocode_call r then Json geocoding_body else Json payload.

(** Services that are down. *)
Definition http_down : oracle := fun _ _ => Fails "connection refused".
End Fixture.

(** ** [app.py]: the page handler and the history file

    Modelled: the form fields read, the call of [get_weather], the history
    file as the JSON document it holds, the keyword arguments given to
    [render_template]. Not modelled: the log lines, and failures of the
    file system itself (the log directory is created at start-up). *)

Module App.
(** What [HISTORY_FILE] holds: a JSON document, given as the value
    [json.load] reads from it and [json.dump] writes to it, or a text that
    is not JSON. *)
Inductive file_content :=
| Doc (v : pyval)
| NotJson.

(** [HISTORY_FILE]: [None] while [os.path.exists] is false. *)
Definition history_file : Type := option file_content.

(** [json.load(f)] *)
Definition json_load (c : file_content) : result pyval :=
  match c with
  | Doc v => Ok v
  | NotJson => Raise (builtin ValueError)
  end.

(** [history.append(x)]: only a list has the method. *)
Definition py_append (history x : pyval) : result pyval :=
  match history with
  | PList l => Ok (PList (l ++ [x]))
  | _ => Raise (builtin AttributeError)
  end.

Definition log_entry (timestamp location : string)
    (data : list (gmap string pyval)) : pyval :=
  PDict (dict_of [("timestamp", PStr timestamp);
                  ("location", PStr location);
                  ("data", PList (PDict <$> data))]).

(** [save_to_history(location, data)], [timestamp] being the clock reading
    formatted by [strftime]. *)
Definition save_to_history (timestamp location : string)
    (data : list (gmap string pyval)) : M history_file unit :=
  try_except
    (let* file := getS in
     let* history := lift (match file with
                           | Some c => json_load c
                           | None => Ok (PList [])
                           end) in
     let* history := lift (py_append history (log_entry timestamp location data)) in
     putS (Some (Doc history)))
    (fun _ => ret tt).

Inductive http_method := GET | POST.

(** The request as [index] reads it: the method and the form fields. *)
Record web_request := WebRequest {
  method : http_method;
  form : gmap string string
}.

(** The keyword arguments of [render_template("index.html", ...)]. *)
Record page := Page {
  page_data : option (list (gmap string pyval));
  page_error : option string;
  page_bg_color : string
}.

(** The external calls made and the history file are the state. *)
Definition state : Type := trace * history_file.

Definition on_trace {A} (m : M trace A) : M state A :=
  fun s => let '(tr, r) := m (fst s) in ((tr, snd s), r).

Definition on_history {A} (m : M history_file A) : M state A :=
  fun s => let '(h, r) := m (snd s) in ((fst s, h), r).

(** [os.getenv("BG_COLOR", "#f8f9fa")] *)
Definition bg_color (BG_COLOR : option string) : string :=
  default "#f8f9fa" BG_COLOR.

(** [request.form["location"]]: a missing field raises werkzeug's
    [BadRequestKeyError], a [KeyError]. *)
Definition form_getitem (form : gmap string string) (key : string)
  : result string :=
  match form !! key with
  | Some v => Ok v
  | None => Raise (builtin KeyError)
  end.

(** [request.form.get("days_num")] *)
Definition form_get (form : gmap string string) (key : string) : pyval :=
  match form !! key with
  | Some v => PStr v
  | None => PNone
  end.

Section View.
Context (http : oracle) (timestamp : string) (BG_COLOR : option string).

(** [index]: the page returned from inside [except] and the one returned
    at the end of the function are the two [Page] values. *)
Definition index (req : web_request) : M state page :=
  match method req with
  | POST =>
      let* location := lift (form_getitem (form req) "location") in
      let days_num := form_get (form req) "days_num" in
      try_except
        (let* data := on_trace (get_weather http location days_num) in
         let* _ := on_history (save_to_history timestamp location data) in
         ret (Page (Some data) None (bg_color BG_COLOR)))
        (fun _ =>
           ret (Page None (Some "Invalid location. Please try again.")
                     (bg_color BG_COLOR)))
  | GET => ret (Page None None (bg_color BG_COLOR))
  end.
End View.
End App.

(** The same reading between two bounds, for every entry of a list. *)
Definition between (lo hi : Z) (xs : list Z) : Prop :=
  Forall (fun z => (lo <= z <= hi)%Z) xs.

(** ** More services, for the examples *)

Module Scenario.
(** The forecast service's answer to a request it rejects. *)
Definition error_body : pyval :=
  PDict (dict_of [("error", PBool true);
                  ("reason", PStr "Forecast days is invalid.")]).

(** Services that know Haifa and reject every forecast request. *)
Definition http_rejecting : oracle :=
  fun _ r => if is_geocode_call r then Json Fixture.geocoding_body
             else Json error_body.

(** Services that know Haifa and whose forecast service is down. *)
Definition http_no_forecast : oracle :=
  fun _ r => if is_geocode_call r then Json Fixture.geocoding_body
             else Fails "timed out".

Definition hefa : gmap string pyval :=
  dict_of [("name", PStr "Hefa"); ("country", PStr "IL");
           ("latitude", PFloat (Float.dec2 3281));
           ("longitude", PFloat (Float.dec2 3500))].

(** Services whose geocoding answer changes from the fourth call on. *)
Definition http_moving : oracle :=
  fun n r => if is_geocode_call r
             then Json (PDict (dict_of
                    [("results", PList [PDict (if (n <? 3)%nat then Fixture.haifa
                                               else hefa)])]))
             else Json Fixture.payload.

Definition post (location days_num : string) : App.web_request :=
  App.WebRequest App.POST
    (list_to_map [("location", location); ("days_num", days_num)]).
End Scenario.

(** ** Exact values, and the inputs that refute the specification *)

(** The exact value of a number, times [2^k], when that is an integer. *)
Definition exact_times_2pow (k : Z) (v : pyval) : option Z :=
  match v with
  | PInt z => Some (z * 2 ^ k)%Z
  | PBool b => Some (Z_of_bool b * 2 ^ k)%Z
  | PFloat (S754_zero _) => Some 0%Z
  | PFloat (S754_finite s m e) =>
      if (0 <=? e + k)%Z
      then Some ((if s then -1 else 1) * Zpos m * 2 ^ (e + k))%Z
      else None
  | _ => None
  end.

(** A series [days] asked of which cannot be read to the end: a list
    among the six that is too short for [days] days. *)
Definition too_short (wd : WeatherData.t) (days : nat) : Prop :=
  (exists l, WeatherData.humiditys wd = PList l /\ length l < 24 * days)
  \/ (exists l, WeatherData.max_temp wd = PList l /\ length l < days)
  \/ (exists l, WeatherData.min_temp wd = PList l /\ length l < days)
  \/ (exists l, WeatherData.time wd = PList l /\ length l < days)
  \/ (exists l, WeatherData.uv_index wd = PList l /\ length l < days)
  \/ (exists l, WeatherData.cloud_cover wd = PList l /\ length l < days).

Module Counter.
(** Two readings that are floats, [9 - 2^-49] and [2^-50 + 2^-60], and 22
    readings of zero: all within [0, 100]. *)
Definition reading_1 : spec_float := S754_finite false 5066549580791807 (-49).
Definition reading_2 : spec_float := S754_finite false 4507997673881600 (-102).

Definition float_humidity : list pyval :=
  PFloat reading_1 :: PFloat reading_2 :: replicate 22 (PInt 0).

Definition float_weather : WeatherData.t :=
  WeatherData.mk 1 (PList Fixture.time) (PList Fixture.uv_index)
    (PList Fixture.cloud_cover) (PList Fixture.max_temp)
    (PList Fixture.min_temp) (PList float_humidity) [].



(** Two days asked, two entries in each daily series, 24 hourly readings
    the last of which is null. *)
Definition weather_short_with_null : WeatherData.t :=
  WeatherData.mk 2 (PList (Fixture.time ++ [PStr "2025-01-22"]))
    (PList (Fixture.uv_index ++ Fixture.uv_index)) (PList Fixture.cloud_cover)
    (PList (Fixture.max_temp ++ Fixture.max_temp))
    (PList (Fixture.min_temp ++ Fixture.min_temp))
    (PList ((PInt <$> take 23 Fixture.humidity) ++ [PNone])) [].

(** Three days asked of one day of series: one entry in each daily series
    and 24 hourly readings. *)
Definition weather_one_day_of_three : WeatherData.t :=
  weather_data 3 Fixture.time Fixture.uv_index Fixture.cloud_cover
    Fixture.max_temp Fixture.min_temp Fixture.humidity [].

(** Two days of series. *)
Definition time_2 : list pyval := Fixture.time ++ [PStr "2025-01-22"].
Definition uv_index_2 : list pyval := Fixture.uv_index ++ Fixture.uv_index.
Definition max_temp_2 : list pyval := Fixture.max_temp ++ Fixture.max_temp.
Definition min_temp_2 : list pyval := Fixture.min_temp ++ Fixture.min_temp.
Definition humidity_2 : list Z := Fixture.humidity ++ reverse Fixture.humidity.
End Counter.

(** * Properties *)

(** ** Arithmetic of the rounding *)

Lemma round_half_even_div_nearest (n d : Z) :
  (0 < d)%Z ->
  (2 * Z.abs (n - d * Float.round_half_even_div n d) <= d)%Z.
Proof.
  intros Hd. unfold Float.round_half_even_div.
  pose proof (Z.div_mod n d ltac:(lia)) as Hdm.
  pose proof (Z.mod_pos_bound n d Hd) as Hb.
  destruct (Z.compare_spec (2 * (n mod d)) d) as [He|Hl|Hg];
    [destruct (Z.even (n / d))| |]; lia.
Qed.

Lemma sf_eqb_eq (x y : spec_float) : sf_eqb x y = true -> x = y.
Proof.
  destruct x, y; simpl; try discriminate; auto.
  - intros H. apply Bool.eqb_prop in H. congruence.
  - intros H. apply Bool.eqb_prop in H. congruence.
  - intros H. apply andb_prop in H as [H He]. apply andb_prop in H as [Hs Hm].
    apply Bool.eqb_prop in Hs. apply Pos.eqb_eq in Hm. apply Z.eqb_eq in He.
    congruence.
Qed.

(** Every total that 24 percentages can reach passes the check. *)
Lemma total_ok_table :
  forallb total_ok (Z.of_nat <$> seq 0 2401) = true.
Proof. vm_compute. reflexivity. Qed.

Lemma total_ok_range (s : Z) : (0 <= s <= 2400)%Z -> total_ok s = true.
Proof.
  intros Hs. pose proof total_ok_table as H.
  rewrite forallb_forall in H. apply H.
  apply in_map_iff. exists (Z.to_nat s). split; [lia|].
  apply in_seq. lia.
Qed.

(** A mean that falls half-way between two hundredths goes to the even
    one: 3/24 = 0.125 gives 0.12 and 9/24 = 0.375 gives 0.38. *)
Example humidity_tie_goes_to_even :
  humidity_of_total (PInt 3) = Ok (PFloat (Float.dec2 12))
  /\ humidity_of_total (PInt 9) = Ok (PFloat (Float.dec2 38)).
Proof. split; vm_compute; reflexivity. Qed.

(** The day count as the web form sends it, a text, and as the tests pass
    it, an int. *)
Example py_int_of_form_field :
  py_int (PStr "3") = Ok 3%Z
  /\ py_int (PStr " 7 ") = Ok 7%Z
  /\ py_int (PInt 3) = Ok 3%Z
  /\ py_int (PStr "three") = Raise (builtin ValueError)
  /\ py_int PNone = Raise (builtin TypeError).
Proof. repeat split; vm_compute; reflexivity. Qed.

(** [int] beyond ASCII: a no-break space (U+00A0, bytes 194 160) is
    stripped and the Arabic-Indic digit three (U+0663, bytes 217 163) is
    read as 3, while the ASCII separator U+001C is no blank for [int]. *)
Example py_int_of_unicode_text :
  py_int (PStr (String (ascii_of_nat 194) (String (ascii_of_nat 160)
                 (String (ascii_of_nat 217)
                   (String (ascii_of_nat 163) EmptyString)))))
  = Ok 3%Z
  /\ py_int (PStr (String (ascii_of_nat 28) "3")) = Raise (builtin ValueError)
  /\ py_int (PStr "1_0") = Ok 10%Z
  /\ py_int (PStr "1__0") = Raise (builtin ValueError).
Proof. repeat split; vm_compute; reflexivity. Qed.

(** No day asked: nothing is read and the list is empty. *)
Example create_days_list_no_day :
  snd (WeatherData.create_days_list (Fixture.weather 0)) = Ok [].
Proof. reflexivity. Qed.

(** ** The hourly sum *)

Lemma Zsum_percent_bounds (xs : list Z) :
  Forall percent xs -> (0 <= Zsum xs <= 100 * Z.of_nat (length xs))%Z.
Proof.
  induction 1 as [|x xs Hx _ IH]; simpl; [lia|].
  unfold percent in Hx. lia.
Qed.

Lemma sum_hours_ints (hs : list Z) (k i : nat) (a : Z) :
  i + k <= length hs ->
  WeatherData.sum_hours (PList (PInt <$> hs)) (PInt a) (seq i k)
  = Ok (PInt (a + Zsum (take k (drop i hs)))).
Proof.
  revert i a. induction k as [|k IH]; intros i a Hlen; simpl.
  - f_equal. f_equal. lia.
  - destruct (lookup_lt_is_Some_2 hs i ltac:(lia)) as [x Hx].
    rewrite list_lookup_fmap, Hx. simpl.
    rewrite IH by lia. do 2 f_equal.
    rewrite (drop_S _ _ _ Hx). simpl. lia.
Qed.

Lemma sum_hours_short (hs : list Z) (k i : nat) (a : Z) :
  0 < k -> length hs < i + k ->
  WeatherData.sum_hours (PList (PInt <$> hs)) (PInt a) (seq i k)
  = Raise (builtin IndexError).
Proof.
  revert i a. induction k as [|k IH]; intros i a Hk Hlen; [lia|]. simpl.
  rewrite list_lookup_fmap.
  destruct (hs !! i) as [x|] eqn:Hx; simpl; [|reflexivity].
  apply lookup_lt_Some in Hx.
  apply IH; lia.
Qed.

(** [calc_total_humidity] on integer percentages: the mean of the first 24
    readings, rounded to two decimals. *)
Lemma calc_total_humidity_percent n tm uv cc mx mn hs acc :
  24 <= length hs -> Forall percent hs ->
  WeatherData.calc_total_humidity (weather_data n tm uv cc mx mn hs acc)
  = Ok (PFloat (Float.dec2 (mean2 (take 24 hs)))).
Proof.
  intros Hlen Hp. unfold WeatherData.calc_total_humidity, weather_data. simpl WeatherData.humiditys.
  change (py_range 24) with (seq 0 24).
  rewrite sum_hours_ints by (simpl; lia). simpl bindR.
  rewrite drop_0, Z.add_0_l.
  assert (Hs : (0 <= Zsum (take 24 hs) <= 2400)%Z).
  { pose proof (Zsum_percent_bounds (take 24 hs) (Forall_take _ _ _ Hp)) as H.
    rewrite length_take in H. lia. }
  pose proof (total_ok_range _ Hs) as Hok. unfold total_ok in Hok.
  unfold humidity_of_total in Hok.
  destruct (py_truediv _ _) as [mean|]; simpl in *; [|discriminate].
  destruct (py_format_2f mean) as [text|]; simpl in *; [|discriminate].
  apply andb_prop in Hok as [Hok _]. apply sf_eqb_eq in Hok.
  unfold py_float. rewrite Hok. unfold mean2.
  rewrite length_take, Nat.min_l by lia. reflexivity.
Qed.

(** ** One day, then the loop *)

Section Aggregation.
Context (n : Z) (tm uv cc mx mn : list pyval).

Lemma day_step_ok (hs : list Z) (acc : list DayWeather.t) (i : nat) :
  i < indexed_len tm uv cc mx mn -> 24 <= length hs -> Forall percent hs ->
  WeatherData.day_step i (weather_data n tm uv cc mx mn hs acc)
  = (weather_data n tm uv cc mx mn (drop 24 hs)
       (acc ++ [day_record tm uv cc mx mn (take 24 hs) i]),
     Ok tt).
Proof.
  unfold indexed_len. intros Hi Hlen Hp.
  destruct (lookup_lt_is_Some_2 mx i ltac:(lia)) as [x1 H1].
  destruct (lookup_lt_is_Some_2 mn i ltac:(lia)) as [x2 H2].
  destruct (lookup_lt_is_Some_2 tm i ltac:(lia)) as [x3 H3].
  destruct (lookup_lt_is_Some_2 uv i ltac:(lia)) as [x4 H4].
  destruct (lookup_lt_is_Some_2 cc i ltac:(lia)) as [x5 H5].
  unfold WeatherData.day_step, bindM, getS, lift, putS.
  pose proof (calc_total_humidity_percent n tm uv cc mx mn hs acc Hlen Hp) as Hc.
  unfold weather_data in *. simpl.
  rewrite H1, H2, H3, H4, H5, Hc.
  unfold day_record. rewrite H1, H2, H3, H4, H5. simpl.
  unfold WeatherData.set_humiditys, WeatherData.append_day. simpl.
  rewrite fmap_drop. reflexivity.
Qed.

Lemma day_step_short (hs : list Z) (acc : list DayWeather.t) (i : nat) :
  indexed_len tm uv cc mx mn <= i \/ length hs < 24 ->
  WeatherData.day_step i (weather_data n tm uv cc mx mn hs acc)
  = (weather_data n tm uv cc mx mn hs acc, Raise (builtin IndexError)).
Proof.
  unfold indexed_len. intros Hshort.
  unfold WeatherData.day_step, bindM, getS, lift, putS.
  unfold weather_data. simpl.
  destruct (mx !! i) as [x1|] eqn:H1; [|reflexivity].
  destruct (mn !! i) as [x2|] eqn:H2; [|reflexivity].
  destruct (tm !! i) as [x3|] eqn:H3; [|reflexivity].
  destruct (uv !! i) as [x4|] eqn:H4; [|reflexivity].
  destruct (cc !! i) as [x5|] eqn:H5; [|reflexivity].
  apply lookup_lt_Some in H1, H2, H3, H4, H5.
  unfold WeatherData.calc_total_humidity. simpl WeatherData.humiditys.
  change (py_range 24) with (seq 0 24).
  rewrite sum_hours_short by lia. reflexivity.
Qed.

Lemma day_loop_ok (k : nat) :
  forall (i : nat) (hs : list Z) (acc : list DayWeather.t),
  i + k <= indexed_len tm uv cc mx mn ->
  24 * k <= length hs ->
  Forall percent hs ->
  WeatherData.day_loop (seq i k) (weather_data n tm uv cc mx mn hs acc)
  = (weather_data n tm uv cc mx mn (drop (24 * k) hs)
       (acc ++ day_records tm uv cc mx mn hs i k),
     Ok tt).
Proof.
  induction k as [|k IH]; intros i hs acc Hi Hlen Hp.
  - simpl. rewrite app_nil_r. reflexivity.
  - cbn [seq WeatherData.day_loop]. unfold bindM at 1.
    rewrite day_step_ok by (assumption || lia).
    rewrite IH; [|lia|rewrite length_drop; lia|by apply Forall_drop].
    rewrite drop_drop. cbn [day_records]. rewrite <- app_assoc.
    do 3 f_equal. lia.
Qed.

Lemma day_loop_short (k : nat) :
  forall (i : nat) (hs : list Z) (acc : list DayWeather.t),
  0 < k ->
  indexed_len tm uv cc mx mn < i + k \/ length hs < 24 * k ->
  Forall percent hs ->
  exists st, WeatherData.day_loop (seq i k) (weather_data n tm uv cc mx mn hs acc)
             = (st, Raise (builtin IndexError)).
Proof.
  induction k as [|k IH]; intros i hs acc Hk Hshort Hp; [lia|].
  cbn [seq WeatherData.day_loop]. unfold bindM at 1.
  destruct (decide (i < indexed_len tm uv cc mx mn /\ 24 <= length hs)) as [[Hi Hlen]|Hno].
  - rewrite day_step_ok by assumption.
    apply IH; [lia| |by apply Forall_drop].
    rewrite length_drop. lia.
  - rewrite day_step_short by lia. eauto.
Qed.

Lemma length_day_records (k : nat) : forall (hs : list Z) (i : nat),
  length (day_records tm uv cc mx mn hs i k) = k.
Proof. induction k as [|k IH]; intros hs i; simpl; [|rewrite IH]; reflexivity. Qed.

Lemma lookup_day_records (k : nat) : forall (hs : list Z) (i j : nat),
  j < k ->
  day_records tm uv cc mx mn hs i k !! j
  = Some (day_record tm uv cc mx mn (day_slice hs j) (i + j)).
Proof.
  induction k as [|k IH]; intros hs i j Hj; [lia|].
  destruct j as [|j]; cbn [day_records].
  - cbn [lookup list_lookup]. unfold day_slice. rewrite Nat.add_0_r. reflexivity.
  - cbn [lookup list_lookup].
    rewrite IH by lia. unfold day_slice. rewrite drop_drop.
    replace (24 * S j) with (24 + 24 * j) by lia.
    replace (i + S j) with (S i + j) by lia. reflexivity.
Qed.

(** A whole run of [create_days_list] on series that are long enough. *)
Lemma create_days_list_ok (hs : list Z) (acc : list DayWeather.t) :
  Z.to_nat n <= indexed_len tm uv cc mx mn -> 24 * Z.to_nat n <= length hs -> Forall percent hs ->
  WeatherData.create_days_list (weather_data n tm uv cc mx mn hs acc)
  = (weather_data n tm uv cc mx mn (drop (24 * Z.to_nat n) hs)
        (acc ++ day_records tm uv cc mx mn hs 0 (Z.to_nat n)),
     Ok (acc ++ day_records tm uv cc mx mn hs 0 (Z.to_nat n))).
Proof.
  intros Hk Hlen Hp.
  unfold WeatherData.create_days_list, bindM at 1, getS at 1.
  unfold bindM at 1.
  replace (WeatherData.days_num (weather_data n tm uv cc mx mn hs acc)) with n by reflexivity.
  unfold py_range. rewrite day_loop_ok by (assumption || lia).
  reflexivity.
Qed.

(** A run on series that are too short for the days asked. *)
Lemma create_days_list_short (hs : list Z) (acc : list DayWeather.t) :
  indexed_len tm uv cc mx mn < Z.to_nat n \/ length hs < 24 * Z.to_nat n -> Forall percent hs ->
  exists st, WeatherData.create_days_list (weather_data n tm uv cc mx mn hs acc)
             = (st, Raise (builtin IndexError)).
Proof.
  intros Hshort Hp.
  unfold WeatherData.create_days_list, bindM at 1, getS at 1.
  unfold bindM at 1.
  replace (WeatherData.days_num (weather_data n tm uv cc mx mn hs acc)) with n by reflexivity.
  unfold py_range.
  destruct (day_loop_short (Z.to_nat n) 0 hs acc) as [st Hst]; [lia|lia|assumption|].
  rewrite Hst. eauto.
Qed.
End Aggregation.

(** ** The per-day aggregation *)

Lemma percent_of_percentb (hs : list Z) :
  forallb percentb hs = true -> Forall percent hs.
Proof.
  intros H. apply Forall_forall. intros z Hz.
  rewrite forallb_forall in H. apply list_elem_of_In in Hz. specialize (H z Hz).
  unfold percentb in H. unfold percent. lia.
Qed.

Lemma length_day_slice (hs : list Z) (days i : nat) :
  24 * days <= length hs -> i < days -> length (day_slice hs i) = 24.
Proof.
  intros Hlen Hi. unfold day_slice.
  rewrite length_take, length_drop. lia.
Qed.

Lemma mean2_nearest (xs : list Z) :
  length xs = 24 ->
  (2 * Z.abs (100 * Zsum xs - 24 * mean2 xs) <= 24)%Z.
Proof.
  intros Hlen. unfold mean2. rewrite Hlen.
  apply (round_half_even_div_nearest (100 * Zsum xs) 24). lia.
Qed.

(** C1, as the specification states it, fails on readings that are floats.
    The readings [9 - 2^-49], [2^-50 + 2^-60] and 22 zeros are doubles
    within [0, 100]; their float sum is 9 and [create_days_list] gives the
    day the humidity 0.38, while their exact sum is [9 - 2^-50 + 2^-60]:
    the mean lies just below 0.375, and 0.37 is the only hundredth within
    half a hundredth of it. *)
Lemma C1_counterexample :
  (exists st day,
     WeatherData.create_days_list Counter.float_weather = (st, Ok [day])
     /\ DayWeather.total_humidity day = PFloat (Float.dec2 38))
  /\ length Counter.float_humidity = 24
  /\ valid_binary Float.prec Float.emax Counter.reading_1 = true
  /\ valid_binary Float.prec Float.emax Counter.reading_2 = true
  /\ in_0_100 (PFloat Counter.reading_1) = true
  /\ in_0_100 (PFloat Counter.reading_2) = true
  /\ (exists exact,
        mapM (exact_times_2pow 102) Counter.float_humidity = Some exact
        /\ Zsum exact = (9 * 2 ^ 102 - 2 ^ 52 + 2 ^ 42)%Z
        /\ forall h : Z,
             (2 * Z.abs (100 * Zsum exact - 24 * 2 ^ 102 * h) <= 24 * 2 ^ 102)%Z ->
             h = 37%Z)
  /\ Float.dec2 38 <> Float.dec2 37.
Proof.
  split; [eexists _, _; split; vm_compute; reflexivity|].
  split; [reflexivity|].
  split; [vm_compute; reflexivity|]. split; [vm_compute; reflexivity|].
  split; [vm_compute; reflexivity|]. split; [vm_compute; reflexivity|].
  split.
  - eexists. split; [vm_compute; reflexivity|].
    split; [vm_compute; reflexivity|].
    intros h Hh.
    assert (Hs : Zsum [45635421608216249446682060652544; 4507997673881600;
                       0; 0; 0; 0; 0; 0; 0; 0; 0; 0; 0; 0; 0; 0; 0; 0; 0; 0;
                       0; 0; 0; 0]%Z
                 = 45635421608216253954679734534144%Z) by reflexivity.
    rewrite Hs in Hh. clear Hs.
    change (2 ^ 102)%Z with 5070602400912917605986812821504%Z in Hh. lia.
  - vm_compute. discriminate.
Qed.

(** C1, amended: for every day index [i] below [days], on list-valued
    series with at least [days] entries in each series read by day index
    and at least [24 * days] hourly humidity readings, the readings being
    integer percentages (0 to 100), [create_days_list] returns [days]
    records and the humidity of record [i] is the arithmetic mean of the 24
    readings at positions [24*i .. 24*i+23], rounded to two decimal places
    (the double written with these two decimals, at most half a hundredth
    away from the mean, the even hundredth on a tie); the readings left in
    the object are those from position [24*days] on. *)
Theorem C1_humidity_is_rounded_day_mean
    (days : nat) (tm uv cc mx mn : list pyval) (hs : list Z) (i : nat) :
  days <= indexed_len tm uv cc mx mn ->
  24 * days <= length hs ->
  Forall percent hs ->
  i < days ->
  exists st out day,
    WeatherData.create_days_list
      (weather_data (Z.of_nat days) tm uv cc mx mn hs []) = (st, Ok out)
    /\ length out = days
    /\ out !! i = Some day
    /\ DayWeather.total_humidity day = PFloat (Float.dec2 (mean2 (day_slice hs i)))
    /\ day_slice hs i = take 24 (drop (24 * i) hs)
    /\ length (day_slice hs i) = 24
    /\ (2 * Z.abs (100 * Zsum (day_slice hs i) - 24 * mean2 (day_slice hs i)) <= 24)%Z
    /\ WeatherData.humiditys st = PList (PInt <$> drop (24 * days) hs).
Proof.
  intros Hd Hlen Hp Hi.
  pose proof (create_days_list_ok (Z.of_nat days) tm uv cc mx mn hs []) as Hrun.
  rewrite Nat2Z.id in Hrun. specialize (Hrun Hd Hlen Hp).
  eexists _, _, _. split; [exact Hrun|]. simpl.
  split; [apply length_day_records|].
  split; [apply lookup_day_records; exact Hi|].
  split; [reflexivity|]. split; [reflexivity|].
  pose proof (length_day_slice hs days i Hlen Hi) as H24.
  split; [exact H24|]. split; [apply mean2_nearest; exact H24|reflexivity].
Qed.

Lemma C1_witness :
  exists st out day,
    WeatherData.create_days_list (Fixture.weather 1) = (st, Ok out)
    /\ length out = 1
    /\ out !! 0 = Some day
    /\ DayWeather.total_humidity day
       = PFloat (Float.dec2 (mean2 (day_slice Fixture.humidity 0)))
    /\ day_slice Fixture.humidity 0 = take 24 (drop (24 * 0) Fixture.humidity)
    /\ length (day_slice Fixture.humidity 0) = 24
    /\ (2 * Z.abs (100 * Zsum (day_slice Fixture.humidity 0)
                   - 24 * mean2 (day_slice Fixture.humidity 0)) <= 24)%Z
    /\ WeatherData.humiditys st = PList (PInt <$> drop (24 * 1) Fixture.humidity).
Proof.
  apply (C1_humidity_is_rounded_day_mean 1 Fixture.time Fixture.uv_index
           Fixture.cloud_cover Fixture.max_temp Fixture.min_temp
           Fixture.humidity 0).
  - vm_compute. lia.
  - vm_compute. lia.
  - apply percent_of_percentb. reflexivity.
  - lia.
Defined.

(** C3, as the specification states it, fails: two days asked of a series
    with 24 hourly readings makes [create_days_list] raise, but the
    exception is Python's [IndexError], not an [InsufficientDataError]. *)
Lemma C3_counterexample :
  ~ exists st e,
      WeatherData.create_days_list Fixture.weather_short = (st, Raise e)
      /\ exn_name (exn_cls e) = "InsufficientDataError".
Proof.
  intros (st & e & Hrun & Hname).
  vm_compute in Hrun. inversion Hrun; subst e. discriminate Hname.
Qed.

(** ** Runs that succeed have read every index *)

Lemma py_getitem_list_ok (l : list pyval) (i : nat) (x : pyval) :
  py_getitem (PList l) i = Ok x -> i < length l.
Proof.
  simpl. destruct (l !! i) as [y|] eqn:Hy; [|discriminate].
  intros _. exact (lookup_lt_Some _ _ _ Hy).
Qed.

Lemma sum_hours_ok_length (l : list pyval) (k : nat) :
  forall (i : nat) (total r : pyval),
  WeatherData.sum_hours (PList l) total (seq i k) = Ok r ->
  0 < k -> i + k <= length l.
Proof.
  induction k as [|k IH]; intros i total r Hrun Hk; [lia|].
  cbn [seq WeatherData.sum_hours] in Hrun.
  destruct (py_getitem (PList l) i) as [x|e] eqn:Hx; [|discriminate].
  apply py_getitem_list_ok in Hx. cbn [bindR] in Hrun.
  destruct (py_add total x) as [total'|e]; [|discriminate]. cbn [bindR] in Hrun.
  destruct k as [|k]; [lia|].
  specialize (IH (S i) total' r Hrun ltac:(lia)). lia.
Qed.

(** What one successful pass of the loop body has read and changed. *)
Lemma day_step_ok_inv (i : nat) (wd wd' : WeatherData.t) (u : unit) :
  WeatherData.day_step i wd = (wd', Ok u) ->
  WeatherData.days_num wd' = WeatherData.days_num wd
  /\ WeatherData.max_temp wd' = WeatherData.max_temp wd
  /\ WeatherData.min_temp wd' = WeatherData.min_temp wd
  /\ WeatherData.time wd' = WeatherData.time wd
  /\ WeatherData.uv_index wd' = WeatherData.uv_index wd
  /\ WeatherData.cloud_cover wd' = WeatherData.cloud_cover wd
  /\ (forall l, WeatherData.max_temp wd = PList l -> i < length l)
  /\ (forall l, WeatherData.min_temp wd = PList l -> i < length l)
  /\ (forall l, WeatherData.time wd = PList l -> i < length l)
  /\ (forall l, WeatherData.uv_index wd = PList l -> i < length l)
  /\ (forall l, WeatherData.cloud_cover wd = PList l -> i < length l)
  /\ (forall l, WeatherData.humiditys wd = PList l ->
        24 <= length l /\ WeatherData.humiditys wd' = PList (drop 24 l)).
Proof.
  unfold WeatherData.day_step, bindM, getS, lift, putS. intros Hrun.
  destruct (py_getitem (WeatherData.max_temp wd) i) as [x1|] eqn:H1; [|discriminate].
  destruct (py_getitem (WeatherData.min_temp wd) i) as [x2|] eqn:H2; [|discriminate].
  destruct (py_getitem (WeatherData.time wd) i) as [x3|] eqn:H3; [|discriminate].
  destruct (py_getitem (WeatherData.uv_index wd) i) as [x4|] eqn:H4; [|discriminate].
  destruct (py_getitem (WeatherData.cloud_cover wd) i) as [x5|] eqn:H5; [|discriminate].
  destruct (WeatherData.calc_total_humidity wd) as [th|] eqn:Hc; [|discriminate].
  cbn [WeatherData.append_day WeatherData.humiditys] in Hrun.
  destruct (py_slice_from (WeatherData.humiditys wd) 24) as [rest|] eqn:Hs;
    [|discriminate].
  inversion Hrun; subst wd'; clear Hrun. cbn.
  repeat split; try reflexivity.
  - intros l Hl. rewrite Hl in H1. exact (py_getitem_list_ok _ _ _ H1).
  - intros l Hl. rewrite Hl in H2. exact (py_getitem_list_ok _ _ _ H2).
  - intros l Hl. rewrite Hl in H3. exact (py_getitem_list_ok _ _ _ H3).
  - intros l Hl. rewrite Hl in H4. exact (py_getitem_list_ok _ _ _ H4).
  - intros l Hl. rewrite Hl in H5. exact (py_getitem_list_ok _ _ _ H5).
  - unfold WeatherData.calc_total_humidity in Hc. rewrite H in Hc.
    change (py_range 24) with (seq 0 24) in Hc.
    destruct (WeatherData.sum_hours (PList l) (PInt 0) (seq 0 24)) as [r|] eqn:Hr;
      [|discriminate].
    apply sum_hours_ok_length in Hr; lia.
  - rewrite H in Hs. cbn in Hs. congruence.
Qed.

(** A loop over [k] days that succeeds has found every list among the six
    series long enough for them. *)
Lemma day_loop_ok_inv (k : nat) :
  forall (i : nat) (wd wd' : WeatherData.t) (u : unit),
  WeatherData.day_loop (seq i k) wd = (wd', Ok u) ->
  (forall l, WeatherData.humiditys wd = PList l -> 24 * k <= length l)
  /\ (0 < k ->
      (forall l, WeatherData.max_temp wd = PList l -> i + k <= length l)
      /\ (forall l, WeatherData.min_temp wd = PList l -> i + k <= length l)
      /\ (forall l, WeatherData.time wd = PList l -> i + k <= length l)
      /\ (forall l, WeatherData.uv_index wd = PList l -> i + k <= length l)
      /\ (forall l, WeatherData.cloud_cover wd = PList l -> i + k <= length l)).
Proof.
  induction k as [|k IH]; intros i wd wd' u Hrun.
  - split; [intros; lia|lia].
  - cbn [seq WeatherData.day_loop] in Hrun. unfold bindM at 1 in Hrun.
    destruct (WeatherData.day_step i wd) as [wd1 [[]|e]] eqn:Hstep; [|discriminate].
    destruct (day_step_ok_inv _ _ _ _ Hstep)
      as (_ & E1 & E2 & E3 & E4 & E5 & L1 & L2 & L3 & L4 & L5 & Lh).
    destruct (IH _ _ _ _ Hrun) as (IHh & IHi).
    split.
    + intros l Hl. destruct (Lh l Hl) as [H24 Hrest].
      specialize (IHh _ Hrest). rewrite length_drop in IHh. lia.
    + intros _. rewrite E1, E2, E3, E4, E5 in IHi.
      destruct k as [|k].
      * repeat split; intros l Hl;
          [specialize (L1 l Hl)|specialize (L2 l Hl)|specialize (L3 l Hl)
          |specialize (L4 l Hl)|specialize (L5 l Hl)]; lia.
      * destruct (IHi ltac:(lia)) as (I1 & I2 & I3 & I4 & I5).
        repeat split; intros l Hl;
          [specialize (I1 l Hl)|specialize (I2 l Hl)|specialize (I3 l Hl)
          |specialize (I4 l Hl)|specialize (I5 l Hl)]; lia.
Qed.

Lemma exn_name_not_insufficient (c : exn_class) :
  exn_name c <> "InsufficientDataError".
Proof. destruct c; discriminate. Qed.

(** With a null among 24 readings and a second day that has none, the
    failure is the [TypeError] of the sum, met on the first day. *)
Example short_series_with_null_raise_TypeError :
  snd (WeatherData.create_days_list Counter.weather_short_with_null)
  = Raise (builtin TypeError)
  /\ too_short Counter.weather_short_with_null 2.
Proof.
  split; [vm_compute; reflexivity|].
  left. eexists. split; [reflexivity|]. vm_compute. lia.
Qed.

(** C3, amended: when one of the six series is a list too short for the
    days asked (fewer than [24 * days] hourly readings, or fewer than [days]
    entries in a series read by day index), [create_days_list] always
    fails: it raises and returns no list, truncated or wrapped. The
    exception is never an [InsufficientDataError], which the code does not
    define: it is the built-in [IndexError] when the six series are lists
    and the readings integer percentages, and otherwise whatever built-in
    exception the first failing operation raises. *)
Theorem C3_short_series_always_raise (wd : WeatherData.t) (days : nat) :
  WeatherData.days_num wd = Z.of_nat days ->
  too_short wd days ->
  exists st e,
    WeatherData.create_days_list wd = (st, Raise e)
    /\ exn_name (exn_cls e) <> "InsufficientDataError"
    /\ (forall tm uv cc mx mn hs acc,
          wd = weather_data (Z.of_nat days) tm uv cc mx mn hs acc ->
          Forall percent hs ->
          e = builtin IndexError).
Proof.
  intros Hn Hshort.
  unfold WeatherData.create_days_list, bindM at 1, getS at 1.
  unfold bindM at 1. rewrite Hn. unfold py_range. rewrite Nat2Z.id.
  destruct (WeatherData.day_loop (seq 0 days) wd) as [st [[]|e]] eqn:Hrun.
  - exfalso. destruct (day_loop_ok_inv _ _ _ _ _ Hrun) as (Hh & Hi).
    destruct Hshort as [(l & Hl & Hlen)|Hshort];
      [specialize (Hh l Hl); lia|].
    assert (Hd : 0 < days).
    { destruct Hshort as [(l & _ & Hlen)|[(l & _ & Hlen)|[(l & _ & Hlen)
        |[(l & _ & Hlen)|(l & _ & Hlen)]]]]; lia. }
    destruct (Hi Hd) as (I1 & I2 & I3 & I4 & I5).
    destruct Hshort as [(l & Hl & Hlen)|[(l & Hl & Hlen)|[(l & Hl & Hlen)
        |[(l & Hl & Hlen)|(l & Hl & Hlen)]]]];
      [specialize (I1 l Hl)|specialize (I2 l Hl)|specialize (I3 l Hl)
      |specialize (I4 l Hl)|specialize (I5 l Hl)]; lia.
  - exists st, e. split; [reflexivity|].
    split; [apply exn_name_not_insufficient|].
    intros tm uv cc mx mn hs acc -> Hp.
    assert (Hs : indexed_len tm uv cc mx mn < days \/ length hs < 24 * days).
    { unfold indexed_len.
      destruct Hshort as [(l & Hl & Hlen)|[(l & Hl & Hlen)|[(l & Hl & Hlen)
        |[(l & Hl & Hlen)|[(l & Hl & Hlen)|(l & Hl & Hlen)]]]]];
        cbn in Hl; inversion Hl; subst l; [right|left..];
        [rewrite length_fmap in Hlen|..]; lia. }
    destruct (decide (0 < days)) as [Hd|Hd].
    + destruct (day_loop_short (Z.of_nat days) tm uv cc mx mn days 0 hs acc Hd)
        as [st' Hst']; [lia|exact Hp|].
      rewrite Hst' in Hrun. congruence.
    + lia.
Qed.

Lemma C3_witness :
  exists st e,
    WeatherData.create_days_list Fixture.weather_short = (st, Raise e)
    /\ exn_name (exn_cls e) <> "InsufficientDataError"
    /\ (forall tm uv cc mx mn hs acc,
          Fixture.weather_short = weather_data (Z.of_nat 2) tm uv cc mx mn hs acc ->
          Forall percent hs ->
          e = builtin IndexError).
Proof.
  apply (C3_short_series_always_raise Fixture.weather_short 2).
  - reflexivity.
  - left. exists (PInt <$> Fixture.humidity). split; [reflexivity|].
    vm_compute. lia.
Defined.

(** C4, as the specification states it, fails: on the 24 readings of the
    test data the computed humidity is not 64.54. *)
Lemma C4_counterexample :
  WeatherData.calc_total_humidity (Fixture.weather 1)
  <> Ok (PFloat (Float.dec2 6454)).
Proof. vm_compute. discriminate. Qed.

(** C4, amended: on the 24 readings of the test data, whose sum is 1564,
    the computed humidity is 65.17, the mean 65.1666... rounded to two
    decimal places. *)
Theorem C4_fixture_humidity_is_65_17 :
  WeatherData.calc_total_humidity (Fixture.weather 1)
  = Ok (PFloat (Float.dec2 6517))
  /\ Zsum Fixture.humidity = 1564%Z
  /\ length Fixture.humidity = 24
  /\ mean2 Fixture.humidity = 6517%Z
  /\ (2 * Z.abs (100 * 1564 - 24 * 6517) <= 24)%Z
  /\ (24 < 2 * Z.abs (100 * 1564 - 24 * 6454))%Z.
Proof. vm_compute. repeat split; congruence. Qed.

(** ** From the forecast body to the aggregator *)







(** ** The client *)

Lemma no_results_first_result (o : outcome) :
  no_results o = true -> first_result o = None.
Proof.
  destruct o as [text|[| | | | | |d]]; simpl; try reflexivity.
  destruct (d !! "results") as [[| | | | |[|x l]|]|]; simpl;
    try reflexivity; discriminate.
Qed.

(** What [get_geocode] does, by the answer of the service. *)
Lemma get_geocode_spec (http : oracle) (me : API.t) (tr : trace) :
  API.get_geocode http (me, tr)
  = match first_result (http (length tr) (API.geo_request me)) with
    | Some g => ((resolved g me, tr ++ [API.geo_request me]), Ok tt)
    | None => ((me, tr ++ [API.geo_request me]),
               Raise (API.location_not_found (API.location me)))
    end.
Proof.
  unfold API.get_geocode, try_except, bindM, API.self, API.requests_get_json,
    lift, API.update, raise. cbn [fst snd].
  destruct (http (length tr) (API.geo_request me)) as [text|body];
    cbn [first_result]; [reflexivity|].
  destruct body as [| | | | | |d]; cbn [py_get bindR]; try reflexivity.
  destruct (d !! "results") as [v|]; [|reflexivity].
  destruct v as [| | | |s|l|d']; try reflexivity.
  - destruct s; reflexivity.
  - destruct l as [|x l]; [reflexivity|]. destruct x; reflexivity.
Qed.

Lemma get_weather_spec (http : oracle) (me : API.t) (tr : trace) :
  API.get_weather http (me, tr)
  = match http (length tr) (API.weather_request me) with
    | Json body => ((API.set_result body me, tr ++ [API.weather_request me]), Ok tt)
    | Fails text =>
        ((me, tr ++ [API.weather_request me]),
         Raise (Exn ConnectionError
                    (Some ("Failed to fetch weather data: " +:+ text))))
    end.
Proof.
  unfold API.get_weather, try_except, bindM, API.self, API.requests_get_json,
    lift, API.update, raise. cbn [fst snd].
  destruct (http (length tr) (API.weather_request me)); reflexivity.
Qed.



Lemma get_api_data_spec (http : oracle) (me : API.t) (tr : trace) :
  API.get_api_data http (me, tr)
  = match first_result (http (length tr) (API.geo_request me)) with
    | None => ((me, tr ++ [API.geo_request me]),
               Raise (API.location_not_found (API.location me)))
    | Some geo =>
        let me1 := resolved geo me in
        let tr1 := tr ++ [API.geo_request me] in
        match http (length tr1) (API.weather_request me1) with
        | Json body =>
            ((API.set_result body me1, tr1 ++ [API.weather_request me1]), Ok body)
        | Fails text =>
            ((me1, tr1 ++ [API.weather_request me1]),
             Raise (Exn ConnectionError
                        (Some ("Failed to fetch weather data: " +:+ text))))
        end
    end.
Proof.
  unfold API.get_api_data, bindM. rewrite get_geocode_spec.
  destruct (first_result _) as [geo|]; [|reflexivity].
  rewrite get_weather_spec. cbn zeta.
  destruct (http _ _); reflexivity.
Qed.

Lemma get_country_name_spec (http : oracle) (me : API.t) (tr : trace) :
  API.get_country_name http (me, tr)
  = match first_result (http (length tr) (API.geo_request me)) with
    | None => ((me, tr ++ [API.geo_request me]),
               Raise (API.location_not_found (API.location me)))
    | Some geo => ((resolved geo me, tr ++ [API.geo_request me]),
                   Ok (default PNone (geo !! "country")))
    end.
Proof.
  unfold API.get_country_name, bindM. rewrite get_geocode_spec.
  destruct (first_result _); reflexivity.
Qed.

Lemma get_city_name_spec (http : oracle) (me : API.t) (tr : trace) :
  API.get_city_name http (me, tr)
  = match first_result (http (length tr) (API.geo_request me)) with
    | None => ((me, tr ++ [API.geo_request me]),
               Raise (API.location_not_found (API.location me)))
    | Some geo => ((resolved geo me, tr ++ [API.geo_request me]),
                   Ok (default PNone (geo !! "name")))
    end.
Proof.
  unfold API.get_city_name, bindM. rewrite get_geocode_spec.
  destruct (first_result _); reflexivity.
Qed.

Lemma geo_request_resolved (geo : gmap string pyval) (me : API.t) :
  API.geo_request (resolved geo me) = API.geo_request me.
Proof. reflexivity. Qed.

Lemma geo_request_set_result (body : pyval) (me : API.t) :
  API.geo_request (API.set_result body me) = API.geo_request me.
Proof. reflexivity. Qed.

(** The whole of [get_weather], case by case: the calls made and the
    value returned. *)
Lemma get_weather_cases (http : oracle) (location : string) (days_num : pyval) :
  let api := API.init location days_num in
  let g := API.geo_request api in
  get_weather http location days_num []
  = match first_result (http 0 g) with
    | None => ([g], Raise (API.location_not_found location))
    | Some geo =>
        let f := API.weather_request (resolved geo api) in
        match http 1 f with
        | Fails text =>
            ([g; f], Raise (Exn ConnectionError
                                (Some ("Failed to fetch weather data: " +:+ text))))
        | Json body =>
            match (let! parsed := Parser.init body in
                   let! wd := WeatherData.init days_num parsed in
                   snd (WeatherData.create_days_list wd)) with
            | Raise e => ([g; f], Raise e)
            | Ok days_list =>
                match first_result (http 2 g) with
                | None => ([g; f; g], Raise (API.location_not_found location))
                | Some geo2 =>
                    match first_result (http 3 g) with
                    | None => ([g; f; g; g],
                               Raise (API.location_not_found location))
                    | Some geo3 =>
                        ([g; f; g; g],
                         Ok (make_data_ready days_list
                               (default PNone (geo2 !! "country"))
                               (default PNone (geo3 !! "name"))))
                    end
                end
            end
        end
    end.
Proof.
  intros api g. unfold get_weather, pipeline.
  unfold bindM at 1. rewrite get_api_data_spec. fold api. fold g.
  cbn [length app].
  destruct (first_result (http 0 g)) as [geo|]; [|reflexivity].
  cbn zeta. cbn [length app].
  destruct (http 1 _) as [text|body]; [reflexivity|].
  unfold bindM at 1. unfold lift at 1.
  destruct (Parser.init body) as [parsed|e]; [|reflexivity].
  unfold bindM at 1. unfold lift at 1. cbn [bindR].
  destruct (WeatherData.init days_num parsed) as [wd|e]; [|reflexivity].
  unfold bindM at 1. unfold lift at 1. cbn [bindR].
  destruct (snd (WeatherData.create_days_list wd)) as [days_list|e]; [|reflexivity].
  unfold bindM at 1. rewrite get_country_name_spec.
  rewrite geo_request_set_result, geo_request_resolved. fold g.
  cbn [length app].
  destruct (first_result (http 2 g)) as [geo2|]; [|reflexivity].
  unfold bindM at 1. rewrite get_city_name_spec.
  rewrite geo_request_resolved, geo_request_set_result, geo_request_resolved.
  fold g. cbn [length app].
  destruct (first_result (http 3 g)) as [geo3|]; reflexivity.
Qed.

(** ** The presentation records *)

Lemma day_element_fields (country city : pyval) (day : DayWeather.t) :
  day_element country city day !! "country" = Some country
  /\ day_element country city day !! "city" = Some city
  /\ day_element country city day !! "time" = Some (DayWeather.time day)
  /\ day_element country city day !! "max_temp" = Some (DayWeather.max_temp day)
  /\ day_element country city day !! "min_temp" = Some (DayWeather.min_temp day)
  /\ day_element country city day !! "humidity" = Some (DayWeather.total_humidity day)
  /\ day_element country city day !! "uv_index" = Some (DayWeather.uv_index day)
  /\ day_element country city day !! "cloud_cover" = Some (DayWeather.cloud_cover day)
  /\ size (day_element country city day) = 8.
Proof. repeat split; vm_compute; reflexivity. Qed.

(** C9: [make_data_ready] returns as many records as days, in the same
    order; record [i] holds exactly the six fields of day [i] and the given
    country and city (eight entries); on no day it returns the empty list;
    it is a total function, with no failure. *)
Theorem C9_make_data_ready_maps_in_order
    (days_list : list DayWeather.t) (country city : pyval) :
  length (make_data_ready days_list country city) = length days_list
  /\ (forall i,
        make_data_ready days_list country city !! i
        = day_element country city <$> days_list !! i)
  /\ (forall day,
        day_element country city day !! "country" = Some country
        /\ day_element country city day !! "city" = Some city
        /\ day_element country city day !! "time" = Some (DayWeather.time day)
        /\ day_element country city day !! "max_temp" = Some (DayWeather.max_temp day)
        /\ day_element country city day !! "min_temp" = Some (DayWeather.min_temp day)
        /\ day_element country city day !! "humidity"
           = Some (DayWeather.total_humidity day)
        /\ day_element country city day !! "uv_index" = Some (DayWeather.uv_index day)
        /\ day_element country city day !! "cloud_cover"
           = Some (DayWeather.cloud_cover day)
        /\ size (day_element country city day) = 8)
  /\ make_data_ready [] (PStr "Israel") (PStr "Haifa") = [].
Proof.
  unfold make_data_ready. split; [apply length_fmap|].
  split; [intros i; apply list_lookup_fmap|].
  split; [intros day; apply day_element_fields|reflexivity].
Qed.

(** ** The external calls of one request *)


Lemma weather_request_coordinates (geo : gmap string pyval) (me : API.t) :
  let f := API.weather_request (resolved geo me) in
  is_forecast_call f = true
  /\ params f !! "latitude" = Some (default PNone (geo !! "latitude"))
  /\ params f !! "longitude" = Some (default PNone (geo !! "longitude"))
  /\ params f !! "forecast_days" = Some (API.days_num me).
Proof.
  split; [reflexivity|].
  unfold API.weather_request, API.weather_params, resolved.
  cbn [params API.latitude API.longitude API.days_num].
  generalize (default PNone (geo !! "latitude"))
             (default PNone (geo !! "longitude")) (API.days_num me).
  intros lat lon d. repeat split; vm_compute; reflexivity.
Qed.


(** ** The whole request *)





(** ** Absent keys in the forecast body *)

Lemma exn_name_not_malformed (c : exn_class) :
  exn_name c <> "MalformedResponseError".
Proof. destruct c; discriminate. Qed.

(** C7, as the specification states it, fails: on a body that lacks the
    [cloud_cover] series the parser is built and its six accessors all
    return, [get_cloud_cover] with [None]; nothing fails in the
    extraction. *)
Lemma C7_counterexample :
  exists parsed,
    Parser.init Fixture.payload_no_cloud_cover = Ok parsed
    /\ Parser.get_cloud_cover parsed = Ok PNone
    /\ is_ok (Parser.get_humidity parsed) = true
    /\ is_ok (Parser.get_time parsed) = true
    /\ is_ok (Parser.get_max_temp parsed) = true
    /\ is_ok (Parser.get_min_temp parsed) = true
    /\ is_ok (Parser.get_uv_index parsed) = true.
Proof. eexists. repeat split; vm_compute; reflexivity. Qed.

Lemma day_step_null_series (wd : WeatherData.t) (i : nat) :
  WeatherData.max_temp wd = PNone \/ WeatherData.min_temp wd = PNone
  \/ WeatherData.time wd = PNone \/ WeatherData.uv_index wd = PNone
  \/ WeatherData.cloud_cover wd = PNone \/ WeatherData.humiditys wd = PNone ->
  exists e, WeatherData.day_step i wd = (wd, Raise e).
Proof.
  intros Hnull.
  unfold WeatherData.day_step, bindM, getS, lift, putS.
  destruct (py_getitem (WeatherData.max_temp wd) i) eqn:E1; [|eauto].
  destruct (py_getitem (WeatherData.min_temp wd) i) eqn:E2; [|eauto].
  destruct (py_getitem (WeatherData.time wd) i) eqn:E3; [|eauto].
  destruct (py_getitem (WeatherData.uv_index wd) i) eqn:E4; [|eauto].
  destruct (py_getitem (WeatherData.cloud_cover wd) i) eqn:E5; [|eauto].
  destruct Hnull as [H|[H|[H|[H|[H|H]]]]];
    try (rewrite H in *; discriminate).
  unfold WeatherData.calc_total_humidity. rewrite H. cbn. eauto.
Qed.

(** C7, amended: no [MalformedResponseError] exists in the code. Building
    the parser from a body that is an object never fails. When [hourly] or
    [daily] is absent the accessors of that group raise [AttributeError];
    when only a series is absent its accessor returns [None] and the
    extraction does not fail. A null series then makes the aggregation of
    one day or more raise, with one of Python's built-in exceptions. *)
Theorem C7_absent_keys_give_none_or_AttributeError (top : gmap string pyval) :
  let parsed := Parser.mk (default PNone (top !! "hourly"))
                          (default PNone (top !! "daily")) in
  Parser.init (PDict top) = Ok parsed
  /\ (top !! "hourly" = None ->
      Parser.get_humidity parsed = Raise (builtin AttributeError)
      /\ Parser.get_cloud_cover parsed = Raise (builtin AttributeError))
  /\ (top !! "daily" = None ->
      Parser.get_time parsed = Raise (builtin AttributeError)
      /\ Parser.get_max_temp parsed = Raise (builtin AttributeError)
      /\ Parser.get_min_temp parsed = Raise (builtin AttributeError)
      /\ Parser.get_uv_index parsed = Raise (builtin AttributeError))
  /\ (forall hourly, top !! "hourly" = Some (PDict hourly) ->
      (hourly !! "relative_humidity_2m" = None ->
       Parser.get_humidity parsed = Ok PNone)
      /\ (hourly !! "cloud_cover" = None ->
          Parser.get_cloud_cover parsed = Ok PNone))
  /\ (forall daily, top !! "daily" = Some (PDict daily) ->
      (daily !! "time" = None -> Parser.get_time parsed = Ok PNone)
      /\ (daily !! "temperature_2m_max" = None ->
          Parser.get_max_temp parsed = Ok PNone)
      /\ (daily !! "temperature_2m_min" = None ->
          Parser.get_min_temp parsed = Ok PNone)
      /\ (daily !! "uv_index_max" = None ->
          Parser.get_uv_index parsed = Ok PNone))
  /\ (forall days_num wd,
        WeatherData.init days_num parsed = Ok wd ->
        (1 <= WeatherData.days_num wd)%Z ->
        WeatherData.max_temp wd = PNone \/ WeatherData.min_temp wd = PNone
        \/ WeatherData.time wd = PNone \/ WeatherData.uv_index wd = PNone
        \/ WeatherData.cloud_cover wd = PNone \/ WeatherData.humiditys wd = PNone ->
        exists e, WeatherData.create_days_list wd = (wd, Raise e))
  /\ (forall c, exn_name c <> "MalformedResponseError").
Proof.
  intros parsed. subst parsed.
  split; [reflexivity|].
  split; [intros ->; split; reflexivity|].
  split; [intros ->; repeat split; reflexivity|].
  split.
  { intros hourly ->. unfold Parser.get_humidity, Parser.get_cloud_cover. cbn.
    split; intros ->; reflexivity. }
  split.
  { intros daily ->. unfold Parser.get_time, Parser.get_max_temp,
      Parser.get_min_temp, Parser.get_uv_index. cbn.
    repeat split; intros ->; reflexivity. }
  split; [|exact exn_name_not_malformed].
  intros days_num wd _ Hdays Hnull.
  unfold WeatherData.create_days_list, bindM at 1, getS at 1. unfold bindM at 1.
  unfold py_range.
  destruct (Z.to_nat (WeatherData.days_num wd)) as [|k] eqn:Ek; [lia|].
  cbn [seq WeatherData.day_loop]. unfold bindM at 1.
  destruct (day_step_null_series wd 0 Hnull) as [e ->]. eauto.
Qed.

(** * Further properties of the code *)

(** ** [api_data.py] *)

(** X1: when the geocoding answer is an object whose [results] list starts
    with an object [g], [get_geocode] makes that one call and stores the
    [name], [country], [latitude] and [longitude] of [g] ([None] for a
    field [g] lacks), whatever the four attributes held before; [location],
    [days_num] and [result] are left as they were. *)
Theorem X1_get_geocode_stores_first_result
    (http : oracle) (me : API.t) (tr : trace)
    (d g : gmap string pyval) (others : list pyval) :
  http (length tr) (API.geo_request me) = Json (PDict d) ->
  d !! "results" = Some (PList (PDict g :: others)) ->
  exists me',
    API.get_geocode http (me, tr) = ((me', tr ++ [API.geo_request me]), Ok tt)
    /\ API.city me' = default PNone (g !! "name")
    /\ API.country me' = default PNone (g !! "country")
    /\ API.latitude me' = default PNone (g !! "latitude")
    /\ API.longitude me' = default PNone (g !! "longitude")
    /\ API.location me' = API.location me
    /\ API.days_num me' = API.days_num me
    /\ API.result me' = API.result me.
Proof.
  intros Hanswer Hresults. exists (resolved g me).
  rewrite get_geocode_spec, Hanswer. cbn [first_result]. rewrite Hresults.
  repeat split; reflexivity.
Qed.

Lemma X1_witness :
  exists me',
    API.get_geocode Fixture.http (API.init "haifa" (PInt 1), [])
    = ((me', [] ++ [API.geo_request (API.init "haifa" (PInt 1))]), Ok tt)
    /\ API.city me' = default PNone (Fixture.haifa !! "name")
    /\ API.country me' = default PNone (Fixture.haifa !! "country")
    /\ API.latitude me' = default PNone (Fixture.haifa !! "latitude")
    /\ API.longitude me' = default PNone (Fixture.haifa !! "longitude")
    /\ API.location me' = API.location (API.init "haifa" (PInt 1))
    /\ API.days_num me' = API.days_num (API.init "haifa" (PInt 1))
    /\ API.result me' = API.result (API.init "haifa" (PInt 1)).
Proof.
  apply (X1_get_geocode_stores_first_result Fixture.http
           (API.init "haifa" (PInt 1)) []
           (dict_of [("results", PList [PDict Fixture.haifa])])
           Fixture.haifa []).
  - reflexivity.
  - vm_compute. reflexivity.
Defined.

(** X2: the forecast call stores whatever body the service returns, of any
    shape, without looking at it, and changes nothing else in the object;
    when the call fails it raises [ConnectionError] with the text
    [Failed to fetch weather data: <cause>] and the object is unchanged. In
    both cases exactly one call is made. *)
Theorem X2_forecast_body_stored_unchecked
    (http : oracle) (me : API.t) (tr : trace) :
  match http (length tr) (API.weather_request me) with
  | Json body =>
      exists me',
        API.get_weather http (me, tr)
        = ((me', tr ++ [API.weather_request me]), Ok tt)
        /\ API.result me' = body
        /\ API.location me' = API.location me
        /\ API.days_num me' = API.days_num me
        /\ API.latitude me' = API.latitude me
        /\ API.longitude me' = API.longitude me
        /\ API.city me' = API.city me
        /\ API.country me' = API.country me
  | Fails cause =>
      API.get_weather http (me, tr)
      = ((me, tr ++ [API.weather_request me]),
         Raise (Exn ConnectionError
                    (Some ("Failed to fetch weather data: " +:+ cause))))
  end.
Proof.
  rewrite get_weather_spec.
  destruct (http (length tr) (API.weather_request me)) as [cause|body];
    [reflexivity|].
  exists (API.set_result body me). repeat split; reflexivity.
Qed.

(** X3: when [get_api_data] returns, the value returned is the one stored
    in [result] (the assertion of [test_get_api_data]), and exactly two
    calls were made: the geocoding one, then the forecast one, whose
    request carries the coordinates now held by the object. *)
Theorem X3_get_api_data_returns_stored_result
    (http : oracle) (me me' : API.t) (tr tr' : trace) (v : pyval) :
  API.get_api_data http (me, tr) = ((me', tr'), Ok v) ->
  API.result me' = v
  /\ tr' = tr ++ [API.geo_request me; API.weather_request me']
  /\ params (API.weather_request me') !! "latitude" = Some (API.latitude me')
  /\ params (API.weather_request me') !! "longitude" = Some (API.longitude me').
Proof.
  rewrite get_api_data_spec.
  destruct (first_result _) as [geo|]; [|discriminate]. cbn zeta.
  destruct (http _ _) as [cause|body]; [discriminate|].
  intros H. inversion H; subst. clear H.
  split; [reflexivity|]. split; [rewrite <- app_assoc; reflexivity|].
  unfold API.weather_request, API.weather_params. cbn [params].
  generalize (API.latitude (API.set_result v (resolved geo me)))
             (API.longitude (API.set_result v (resolved geo me)))
             (API.days_num (API.set_result v (resolved geo me))).
  intros lat lon dn. split; vm_compute; reflexivity.
Qed.

Lemma X3_witness :
  API.result (API.set_result Fixture.payload
                (resolved Fixture.haifa (API.init "haifa" (PInt 1))))
  = Fixture.payload
  /\ [API.geo_request (API.init "haifa" (PInt 1));
      API.weather_request (resolved Fixture.haifa (API.init "haifa" (PInt 1)))]
     = [] ++ [API.geo_request (API.init "haifa" (PInt 1));
              API.weather_request
                (API.set_result Fixture.payload
                   (resolved Fixture.haifa (API.init "haifa" (PInt 1))))]
  /\ params (API.weather_request
               (API.set_result Fixture.payload
                  (resolved Fixture.haifa (API.init "haifa" (PInt 1)))))
     !! "latitude"
     = Some (API.latitude
               (API.set_result Fixture.payload
                  (resolved Fixture.haifa (API.init "haifa" (PInt 1)))))
  /\ params (API.weather_request
               (API.set_result Fixture.payload
                  (resolved Fixture.haifa (API.init "haifa" (PInt 1)))))
     !! "longitude"
     = Some (API.longitude
               (API.set_result Fixture.payload
                  (resolved Fixture.haifa (API.init "haifa" (PInt 1))))).
Proof.
  apply (X3_get_api_data_returns_stored_result Fixture.http
           (API.init "haifa" (PInt 1)) _ [] _ Fixture.payload).
  vm_compute. reflexivity.
Defined.

(** X4: [get_city_name] and [get_country_name] each make one geocoding
    call of their own and return the [name], respectively the [country], of
    the first result of that very answer ([None] if it has no such field);
    when that answer holds no usable result they raise the
    location-not-found [ValueError]. *)
Theorem X4_city_and_country_come_from_a_fresh_lookup
    (http : oracle) (me : API.t) (tr : trace) :
  match first_result (http (length tr) (API.geo_request me)) with
  | Some g =>
      exists me1 me2,
        API.get_city_name http (me, tr)
        = ((me1, tr ++ [API.geo_request me]), Ok (default PNone (g !! "name")))
        /\ API.city me1 = default PNone (g !! "name")
        /\ API.get_country_name http (me, tr)
           = ((me2, tr ++ [API.geo_request me]),
              Ok (default PNone (g !! "country")))
        /\ API.country me2 = default PNone (g !! "country")
  | None =>
      API.get_city_name http (me, tr)
      = ((me, tr ++ [API.geo_request me]),
         Raise (Exn ValueError
                    (Some ("Location not found: " +:+ API.location me))))
      /\ API.get_country_name http (me, tr)
         = ((me, tr ++ [API.geo_request me]),
            Raise (Exn ValueError
                       (Some ("Location not found: " +:+ API.location me))))
  end.
Proof.
  rewrite get_city_name_spec, get_country_name_spec.
  destruct (first_result _) as [g|]; [|split; reflexivity].
  exists (resolved g me), (resolved g me). repeat split; reflexivity.
Qed.

(** ** [weather.py]: [WeatherData.__init__] *)

(** X5: [WeatherData.__init__] converts the day count before it reads any
    series, so a day count that [int] rejects makes it raise that error
    whatever the parsed data; with a day count [int] accepts, it succeeds
    exactly when both groups of the body are objects, takes each series as
    stored ([None] when absent) and starts with an empty [days_list]; a
    group that is not an object gives [AttributeError]. *)
Theorem X5_weather_data_init (days_num : pyval) (parsed : Parser.t) :
  match py_int days_num with
  | Raise e => WeatherData.init days_num parsed = Raise e
  | Ok n =>
      match Parser.hourly_data parsed, Parser.daily_data parsed with
      | PDict hourly, PDict daily =>
          WeatherData.init days_num parsed
          = Ok (WeatherData.mk n
                  (default PNone (daily !! "time"))
                  (default PNone (daily !! "uv_index_max"))
                  (default PNone (hourly !! "cloud_cover"))
                  (default PNone (daily !! "temperature_2m_max"))
                  (default PNone (daily !! "temperature_2m_min"))
                  (default PNone (hourly !! "relative_humidity_2m"))
                  [])
      | _, _ => WeatherData.init days_num parsed = Raise (builtin AttributeError)
      end
  end.
Proof.
  unfold WeatherData.init, Parser.get_time, Parser.get_uv_index,
    Parser.get_cloud_cover, Parser.get_max_temp, Parser.get_min_temp,
    Parser.get_humidity.
  destruct (py_int days_num) as [n|e]; [|reflexivity]. cbn [bindR].
  destruct (Parser.hourly_data parsed), (Parser.daily_data parsed);
    reflexivity.
Qed.

(** ** [weather.py]: [calc_total_humidity] *)

Lemma sum_hours_take (l : list pyval) (k i : nat) (total : pyval) :
  i + k <= 24 ->
  WeatherData.sum_hours (PList (take 24 l)) total (seq i k)
  = WeatherData.sum_hours (PList l) total (seq i k).
Proof.
  revert i total. induction k as [|k IH]; intros i total Hik; [reflexivity|].
  cbn [seq WeatherData.sum_hours py_getitem].
  rewrite lookup_take_lt by lia.
  destruct (l !! i) as [x|]; [|reflexivity]. cbn [bindR].
  destruct (py_add total x) as [total'|e]; [|reflexivity]. cbn [bindR].
  apply IH. lia.
Qed.

(** X6: [calc_total_humidity] looks at the first 24 entries of the hourly
    list and at nothing else: whatever the list holds (numbers, nulls,
    anything) and however long it is, the outcome, value or exception, is
    the one obtained on its first 24 entries alone. *)
Theorem X6_calc_reads_first_24_only (wd : WeatherData.t) (l : list pyval) :
  WeatherData.calc_total_humidity (WeatherData.set_humiditys (PList l) wd)
  = WeatherData.calc_total_humidity
      (WeatherData.set_humiditys (PList (take 24 l)) wd).
Proof.
  unfold WeatherData.calc_total_humidity.
  cbn [WeatherData.set_humiditys WeatherData.humiditys].
  change (py_range 24) with (seq 0 24).
  rewrite sum_hours_take by lia. reflexivity.
Qed.

Lemma sum_hours_ints_then (pre : list Z) (rest : list pyval) (k i : nat) (a : Z) :
  i + k <= length pre ->
  WeatherData.sum_hours (PList ((PInt <$> pre) ++ rest)) (PInt a) (seq i k)
  = Ok (PInt (a + Zsum (take k (drop i pre)))).
Proof.
  revert i a. induction k as [|k IH]; intros i a Hlen; simpl.
  - f_equal. f_equal. lia.
  - destruct (lookup_lt_is_Some_2 pre i ltac:(lia)) as [x Hx].
    rewrite lookup_app_l by (rewrite length_fmap; lia).
    rewrite list_lookup_fmap, Hx. simpl.
    rewrite IH by lia. do 2 f_equal.
    rewrite (drop_S _ _ _ Hx). simpl. lia.
Qed.

Lemma sum_hours_split (h total : pyval) (l1 l2 : list nat) :
  WeatherData.sum_hours h total (l1 ++ l2)
  = let! t := WeatherData.sum_hours h total l1 in WeatherData.sum_hours h t l2.
Proof.
  revert total. induction l1 as [|i l1 IH]; intros total; [reflexivity|].
  cbn [app WeatherData.sum_hours].
  destruct (py_getitem h i) as [x|]; [|reflexivity]. cbn [bindR].
  destruct (py_add total x) as [t|]; [|reflexivity]. cbn [bindR]. apply IH.
Qed.

(** X7: a day with a gap fails. When the hourly list holds integers up to
    a position below 24 and a null there (the service's mark for a missing
    reading), [calc_total_humidity] raises [TypeError]; when the list of
    integers simply ends before 24 entries, it raises [IndexError]. No
    partial mean is returned. *)
Theorem X7_calc_fails_on_null_or_short_day
    (wd : WeatherData.t) (pre : list Z) (rest : list pyval) :
  length pre < 24 ->
  WeatherData.calc_total_humidity
    (WeatherData.set_humiditys (PList ((PInt <$> pre) ++ PNone :: rest)) wd)
  = Raise (builtin TypeError)
  /\ WeatherData.calc_total_humidity
       (WeatherData.set_humiditys (PList (PInt <$> pre)) wd)
     = Raise (builtin IndexError).
Proof.
  intros Hlen. split; unfold WeatherData.calc_total_humidity;
    cbn [WeatherData.set_humiditys WeatherData.humiditys];
    change (py_range 24) with (seq 0 24).
  - replace (seq 0 24) with (seq 0 (length pre) ++ seq (length pre) (24 - length pre))
      by (rewrite <- seq_app; f_equal; lia).
    rewrite sum_hours_split, sum_hours_ints_then by lia. cbn [bindR].
    destruct (24 - length pre) as [|k] eqn:Ek; [lia|].
    cbn [seq WeatherData.sum_hours py_getitem].
    rewrite lookup_app_r by (rewrite length_fmap; lia).
    rewrite length_fmap, Nat.sub_diag. reflexivity.
  - rewrite sum_hours_short by lia. reflexivity.
Qed.

Lemma X7_witness :
  WeatherData.calc_total_humidity
    (WeatherData.set_humiditys
       (PList ((PInt <$> [50; 60]%Z) ++ PNone :: [PInt 70])) (Fixture.weather 1))
  = Raise (builtin TypeError)
  /\ WeatherData.calc_total_humidity
       (WeatherData.set_humiditys (PList (PInt <$> [50; 60]%Z)) (Fixture.weather 1))
     = Raise (builtin IndexError).
Proof.
  apply (X7_calc_fails_on_null_or_short_day (Fixture.weather 1)
           [50; 60]%Z [PInt 70]).
  simpl. lia.
Defined.

Lemma calc_on_24_ints (wd : WeatherData.t) (hs : list Z) :
  length hs = 24 ->
  WeatherData.calc_total_humidity
    (WeatherData.set_humiditys (PList (PInt <$> hs)) wd)
  = humidity_of_total (PInt (Zsum hs)).
Proof.
  intros Hlen. unfold WeatherData.calc_total_humidity.
  cbn [WeatherData.set_humiditys WeatherData.humiditys].
  change (py_range 24) with (seq 0 24).
  rewrite sum_hours_ints by (simpl; lia). cbn [bindR].
  rewrite drop_0, Z.add_0_l, take_ge by lia. reflexivity.
Qed.

Lemma Zsum_Permutation (l1 l2 : list Z) : l1 ≡ₚ l2 -> Zsum l1 = Zsum l2.
Proof.
  induction 1 as [|x l1 l2 _ IH|x y l|l1 l2 l3 _ IH1 _ IH2]; simpl; lia.
Qed.

(** X8: for integer readings the order of the 24 hours does not matter:
    two days whose readings are a rearrangement of one another get the same
    outcome from [calc_total_humidity] (the integer sum is exact). *)
Theorem X8_calc_ignores_order_of_hours
    (wd : WeatherData.t) (l1 l2 : list Z) :
  length l1 = 24 ->
  l1 ≡ₚ l2 ->
  WeatherData.calc_total_humidity
    (WeatherData.set_humiditys (PList (PInt <$> l1)) wd)
  = WeatherData.calc_total_humidity
      (WeatherData.set_humiditys (PList (PInt <$> l2)) wd).
Proof.
  intros Hlen Hperm.
  rewrite !calc_on_24_ints by (rewrite <- ?Hperm; exact Hlen).
  rewrite (Zsum_Permutation _ _ Hperm). reflexivity.
Qed.

Lemma X8_witness :
  WeatherData.calc_total_humidity
    (WeatherData.set_humiditys (PList (PInt <$> Fixture.humidity))
       (Fixture.weather 1))
  = WeatherData.calc_total_humidity
      (WeatherData.set_humiditys (PList (PInt <$> reverse Fixture.humidity))
         (Fixture.weather 1)).
Proof.
  apply (X8_calc_ignores_order_of_hours (Fixture.weather 1)
           Fixture.humidity (reverse Fixture.humidity)).
  - reflexivity.
  - symmetry. apply reverse_Permutation.
Defined.

Lemma round_half_even_div_bounds (n d a b : Z) :
  (0 < d)%Z -> (d * a <= n)%Z -> (n <= d * b)%Z ->
  (a <= Float.round_half_even_div n d <= b)%Z.
Proof.
  intros Hd Ha Hb. unfold Float.round_half_even_div.
  pose proof (Z.div_mod n d ltac:(lia)) as Hdm.
  pose proof (Z.mod_pos_bound n d Hd) as Hm.
  assert (Hqa : (a <= n / d)%Z) by (apply Z.div_le_lower_bound; lia).
  assert (Hqb : (n / d < b \/ (n / d = b /\ n mod d = 0))%Z) by nia.
  destruct (Z.compare_spec (2 * (n mod d)) d) as [He|Hl|Hg];
    [destruct (Z.even (n / d))| |]; lia.
Qed.

Lemma Zsum_between (lo hi : Z) (xs : list Z) :
  between lo hi xs ->
  (lo * Z.of_nat (length xs) <= Zsum xs <= hi * Z.of_nat (length xs))%Z.
Proof.
  induction 1 as [|x xs Hx _ IH]; simpl length; simpl Zsum; lia.
Qed.

(** X9: the humidity of a day lies between its lowest and its highest
    reading. For 24 integer percentages that all lie between [lo] and [hi],
    [calc_total_humidity] returns the double written [h/100] for a number
    of hundredths [h] with [100 * lo <= h <= 100 * hi]; a day of constant
    readings [v] thus gets [v.00]. *)
Theorem X9_humidity_between_lowest_and_highest
    (wd : WeatherData.t) (hs : list Z) (lo hi : Z) :
  length hs = 24 ->
  Forall percent hs ->
  between lo hi hs ->
  exists h,
    WeatherData.calc_total_humidity
      (WeatherData.set_humiditys (PList (PInt <$> hs)) wd)
    = Ok (PFloat (Float.dec2 h))
    /\ (100 * lo <= h <= 100 * hi)%Z.
Proof.
  intros Hlen Hp Hb. exists (mean2 hs). split.
  - pose proof (calc_total_humidity_percent 0 [] [] [] [] [] hs []
                  ltac:(lia) Hp) as Hc.
    rewrite take_ge in Hc by lia. rewrite <- Hc. reflexivity.
  - unfold mean2. rewrite Hlen.
    pose proof (Zsum_between lo hi hs Hb) as Hs. rewrite Hlen in Hs.
    apply round_half_even_div_bounds; lia.
Qed.

Lemma X9_witness :
  exists h,
    WeatherData.calc_total_humidity
      (WeatherData.set_humiditys (PList (PInt <$> Fixture.humidity))
         (Fixture.weather 1))
    = Ok (PFloat (Float.dec2 h))
    /\ (100 * 34 <= h <= 100 * 86)%Z.
Proof.
  apply (X9_humidity_between_lowest_and_highest (Fixture.weather 1)
           Fixture.humidity 34 86).
  - reflexivity.
  - apply percent_of_percentb. reflexivity.
  - unfold between, Fixture.humidity.
    repeat (constructor; [lia|]). constructor.
Defined.

(** ** [weather.py]: [create_days_list] *)

(** X10: with a day count of zero or below, [create_days_list] reads
    nothing and raises nothing, whatever the six series are (null
    included): it returns the list the object already holds and leaves the
    object as it is. *)
Theorem X10_no_day_asked_nothing_read (wd : WeatherData.t) :
  (WeatherData.days_num wd <= 0)%Z ->
  WeatherData.create_days_list wd = (wd, Ok (WeatherData.days_list wd)).
Proof.
  intros Hn. unfold WeatherData.create_days_list, bindM, getS, py_range.
  replace (Z.to_nat (WeatherData.days_num wd)) with 0 by lia. reflexivity.
Qed.

Lemma X10_witness :
  WeatherData.create_days_list
    (WeatherData.mk (-3) PNone PNone PNone PNone PNone PNone [])
  = (WeatherData.mk (-3) PNone PNone PNone PNone PNone PNone [],
     Ok (WeatherData.days_list
           (WeatherData.mk (-3) PNone PNone PNone PNone PNone PNone []))).
Proof.
  apply (X10_no_day_asked_nothing_read
           (WeatherData.mk (-3) PNone PNone PNone PNone PNone PNone [])).
  simpl. lia.
Defined.

Lemma day_loop_app (l1 l2 : list nat) (wd : WeatherData.t) :
  WeatherData.day_loop (l1 ++ l2) wd
  = match WeatherData.day_loop l1 wd with
    | (wd', Ok _) => WeatherData.day_loop l2 wd'
    | (wd', Raise e) => (wd', Raise e)
    end.
Proof.
  revert wd. induction l1 as [|i l1 IH]; intros wd; [reflexivity|].
  cbn [app WeatherData.day_loop]. unfold bindM.
  destruct (WeatherData.day_step i wd) as [wd' [[]|e]]; [apply IH|reflexivity].
Qed.

(** X11: a failed call is not undone. On list-valued series with integer
    humidity percentages that hold [k] whole days and not [k + 1] (every
    series read by day index has [k] entries and there are [24 * k]
    readings, but one of those series stops at [k] entries or fewer than
    [24 * (k + 1)] readings are there), asking for more than [k] days makes
    [create_days_list] raise [IndexError] after it has appended the records
    of these [k] days to [days_list] and moved past their [24 * k]
    readings: the object keeps both changes. *)
Theorem X11_failure_keeps_completed_days
    (days k : nat) (tm uv cc mx mn : list pyval) (hs : list Z)
    (acc : list DayWeather.t) :
  k < days ->
  k <= indexed_len tm uv cc mx mn ->
  24 * k <= length hs ->
  indexed_len tm uv cc mx mn <= k \/ length hs < 24 * (k + 1) ->
  Forall percent hs ->
  WeatherData.create_days_list
    (weather_data (Z.of_nat days) tm uv cc mx mn hs acc)
  = (weather_data (Z.of_nat days) tm uv cc mx mn (drop (24 * k) hs)
       (acc ++ day_records tm uv cc mx mn hs 0 k),
     Raise (builtin IndexError)).
Proof.
  intros Hk Hd Hlen Hstop Hp.
  unfold WeatherData.create_days_list, bindM at 1, getS at 1.
  unfold bindM at 1.
  replace (WeatherData.days_num (weather_data (Z.of_nat days) tm uv cc mx mn hs acc))
    with (Z.of_nat days) by reflexivity.
  unfold py_range. rewrite Nat2Z.id.
  assert (Hseq : seq 0 days = seq 0 k ++ seq k (S (days - k - 1))).
  { change k with (0 + k) at 2. rewrite <- (seq_app k (S (days - k - 1)) 0).
    f_equal. lia. }
  rewrite Hseq, day_loop_app.
  rewrite day_loop_ok by (assumption || lia).
  cbn [seq WeatherData.day_loop Nat.add]. unfold bindM at 1.
  rewrite day_step_short by (rewrite length_drop; lia).
  reflexivity.
Qed.

Lemma X11_witness :
  WeatherData.create_days_list Counter.weather_one_day_of_three
  = (weather_data (Z.of_nat 3) Fixture.time Fixture.uv_index
       Fixture.cloud_cover Fixture.max_temp Fixture.min_temp
       (drop (24 * 1) Fixture.humidity)
       ([] ++ day_records Fixture.time Fixture.uv_index Fixture.cloud_cover
                Fixture.max_temp Fixture.min_temp Fixture.humidity 0 1),
     Raise (builtin IndexError)).
Proof.
  apply (X11_failure_keeps_completed_days 3 1 Fixture.time Fixture.uv_index
           Fixture.cloud_cover Fixture.max_temp Fixture.min_temp
           Fixture.humidity []).
  - lia.
  - vm_compute. lia.
  - vm_compute. lia.
  - left. vm_compute. lia.
  - apply percent_of_percentb. reflexivity.
Defined.

Lemma day_records_take (tm uv cc mx mn : list pyval) (k : nat) :
  forall (days : nat) (hs : list Z) (i : nat),
  k <= days ->
  day_records tm uv cc mx mn hs i k
  = take k (day_records tm uv cc mx mn hs i days).
Proof.
  induction k as [|k IH]; intros days hs i Hk; [reflexivity|].
  destruct days as [|days]; [lia|].
  cbn [day_records take]. f_equal. apply IH. lia.
Qed.

(** X12: asking for more days does not change the earlier ones. On
    list-valued series long enough for [days] days (at least [days] entries
    in each series read by day index, at least [24 * days] readings), the
    readings being integer percentages, the list returned for [k <= days]
    days has [k] records and is the first [k] records of the list of
    [days] records returned for [days] days. *)
Theorem X12_fewer_days_give_a_prefix
    (k days : nat) (tm uv cc mx mn : list pyval) (hs : list Z) :
  k <= days ->
  days <= indexed_len tm uv cc mx mn ->
  24 * days <= length hs ->
  Forall percent hs ->
  exists out_k out_days,
    snd (WeatherData.create_days_list
           (weather_data (Z.of_nat k) tm uv cc mx mn hs [])) = Ok out_k
    /\ snd (WeatherData.create_days_list
              (weather_data (Z.of_nat days) tm uv cc mx mn hs [])) = Ok out_days
    /\ length out_k = k
    /\ length out_days = days
    /\ out_k = take k out_days.
Proof.
  intros Hk Hd Hlen Hp.
  pose proof (create_days_list_ok (Z.of_nat k) tm uv cc mx mn hs []) as Hrk.
  pose proof (create_days_list_ok (Z.of_nat days) tm uv cc mx mn hs []) as Hrd.
  rewrite Nat2Z.id in Hrk, Hrd.
  rewrite Hrk by (assumption || lia). rewrite Hrd by (assumption || lia).
  eexists _, _. split; [reflexivity|]. split; [reflexivity|]. cbn [app].
  split; [apply length_day_records|]. split; [apply length_day_records|].
  apply day_records_take. exact Hk.
Qed.

Lemma X12_witness :
  exists out_k out_days,
    snd (WeatherData.create_days_list
           (weather_data (Z.of_nat 1) Counter.time_2 Counter.uv_index_2
              Fixture.cloud_cover Counter.max_temp_2 Counter.min_temp_2
              Counter.humidity_2 [])) = Ok out_k
    /\ snd (WeatherData.create_days_list
              (weather_data (Z.of_nat 2) Counter.time_2 Counter.uv_index_2
                 Fixture.cloud_cover Counter.max_temp_2 Counter.min_temp_2
                 Counter.humidity_2 [])) = Ok out_days
    /\ length out_k = 1
    /\ length out_days = 2
    /\ out_k = take 1 out_days.
Proof.
  apply (X12_fewer_days_give_a_prefix 1 2 Counter.time_2 Counter.uv_index_2
           Fixture.cloud_cover Counter.max_temp_2 Counter.min_temp_2
           Counter.humidity_2).
  - lia.
  - vm_compute. lia.
  - vm_compute. lia.
  - apply percent_of_percentb. reflexivity.
Defined.

(** ** [weather.py]: [make_data_ready] *)

Lemma day_element_inj (country city : pyval) (d1 d2 : DayWeather.t) :
  day_element country city d1 = day_element country city d2 -> d1 = d2.
Proof.
  intros Heq.
  destruct (day_element_fields country city d1)
    as (_ & _ & T1 & X1 & N1 & H1 & U1 & C1 & _).
  destruct (day_element_fields country city d2)
    as (_ & _ & T2 & X2 & N2 & H2 & U2 & C2 & _).
  rewrite Heq in T1, X1, N1, H1, U1, C1.
  destruct d1, d2. simpl in *. congruence.
Qed.

(** X13: the presentation loses nothing of a day: two lists of days that
    [make_data_ready] turns into the same records, for the same country and
    city, are the same list; every field of every day can be read back from
    the records. *)
Theorem X13_make_data_ready_loses_no_field
    (l1 l2 : list DayWeather.t) (country city : pyval) :
  make_data_ready l1 country city = make_data_ready l2 country city ->
  l1 = l2.
Proof.
  unfold make_data_ready. revert l2.
  induction l1 as [|d1 l1 IH]; intros [|d2 l2] Heq; try discriminate;
    [reflexivity|].
  assert (Hd : day_element country city d1 = day_element country city d2).
  { apply (f_equal (fun l => default (day_element country city d1) (head l)))
      in Heq. exact Heq. }
  assert (Hl : day_element country city <$> l1 = day_element country city <$> l2).
  { apply (f_equal tail) in Heq. exact Heq. }
  f_equal; [exact (day_element_inj _ _ _ _ Hd)|exact (IH _ Hl)].
Qed.

Lemma X13_witness :
  day_records Fixture.time Fixture.uv_index Fixture.cloud_cover
    Fixture.max_temp Fixture.min_temp Fixture.humidity 0 1
  = day_records Fixture.time Fixture.uv_index Fixture.cloud_cover
      Fixture.max_temp Fixture.min_temp Fixture.humidity 0 1.
Proof.
  apply (X13_make_data_ready_loses_no_field _ _ (PStr "Israel") (PStr "Haifa")).
  reflexivity.
Defined.

(** ** [weather.py]: [get_weather], the ways it fails *)

(** X14: for a location the first geocoding call cannot resolve,
    [get_weather] raises the location-not-found [ValueError] after that
    single call: no forecast is asked for. *)
Theorem X14_unresolved_location_stops_after_one_call
    (http : oracle) (location : string) (days_num : pyval) :
  no_results (http 0 (API.geo_request (API.init location days_num))) = true ->
  get_weather http location days_num []
  = ([API.geo_request (API.init location days_num)],
     Raise (Exn ValueError (Some ("Location not found: " +:+ location)))).
Proof.
  intros Hno. rewrite get_weather_cases. cbn zeta.
  rewrite (no_results_first_result _ Hno). reflexivity.
Qed.

Lemma X14_witness :
  get_weather Fixture.http_down "qwertyuiop" (PStr "3") []
  = ([API.geo_request (API.init "qwertyuiop" (PStr "3"))],
     Raise (Exn ValueError (Some ("Location not found: " +:+ "qwertyuiop")))).
Proof.
  apply (X14_unresolved_location_stops_after_one_call Fixture.http_down
           "qwertyuiop" (PStr "3")).
  reflexivity.
Defined.

(** X15: when the location resolves and the forecast call fails,
    [get_weather] raises [ConnectionError] with the text
    [Failed to fetch weather data: <cause>] after these two calls, and does
    not mistake it for an unknown location. *)
Theorem X15_forecast_failure_is_a_connection_error
    (http : oracle) (location : string) (days_num : pyval)
    (geo : gmap string pyval) (cause : string) :
  first_result (http 0 (API.geo_request (API.init location days_num))) = Some geo ->
  http 1 (API.weather_request (resolved geo (API.init location days_num)))
  = Fails cause ->
  get_weather http location days_num []
  = ([API.geo_request (API.init location days_num);
      API.weather_request (resolved geo (API.init location days_num))],
     Raise (Exn ConnectionError
                (Some ("Failed to fetch weather data: " +:+ cause)))).
Proof.
  intros Hgeo Hf. rewrite get_weather_cases. cbn zeta.
  rewrite Hgeo, Hf. reflexivity.
Qed.

Lemma X15_witness :
  get_weather Scenario.http_no_forecast "haifa" (PStr "3") []
  = ([API.geo_request (API.init "haifa" (PStr "3"));
      API.weather_request (resolved Fixture.haifa (API.init "haifa" (PStr "3")))],
     Raise (Exn ConnectionError
                (Some ("Failed to fetch weather data: " +:+ "timed out")))).
Proof.
  apply (X15_forecast_failure_is_a_connection_error Scenario.http_no_forecast
           "haifa" (PStr "3") Fixture.haifa "timed out").
  - vm_compute. reflexivity.
  - reflexivity.
Defined.

(** X16: the day count is checked after the services have been called.
    With a day count that [int] rejects (a text that is no number, a
    missing form field), [get_weather] still makes the geocoding call and
    the forecast call, passing the day count on as it is, and only then
    raises the error of [int], provided the forecast body is an object. *)
Theorem X16_day_count_checked_after_the_calls
    (http : oracle) (location : string) (days_num : pyval)
    (geo top : gmap string pyval) (e : exn) :
  py_int days_num = Raise e ->
  first_result (http 0 (API.geo_request (API.init location days_num))) = Some geo ->
  http 1 (API.weather_request (resolved geo (API.init location days_num)))
  = Json (PDict top) ->
  get_weather http location days_num []
  = ([API.geo_request (API.init location days_num);
      API.weather_request (resolved geo (API.init location days_num))],
     Raise e)
  /\ params (API.weather_request (resolved geo (API.init location days_num)))
     !! "forecast_days" = Some days_num.
Proof.
  intros Hint Hgeo Hf. split.
  - rewrite get_weather_cases. cbn zeta. rewrite Hgeo, Hf.
    unfold Parser.init, WeatherData.init. cbn [py_get bindR].
    rewrite Hint. reflexivity.
  - destruct (weather_request_coordinates geo (API.init location days_num))
      as (_ & _ & _ & Hd). exact Hd.
Qed.

Lemma X16_witness :
  get_weather Fixture.http "haifa" (PStr "three") []
  = ([API.geo_request (API.init "haifa" (PStr "three"));
      API.weather_request (resolved Fixture.haifa (API.init "haifa" (PStr "three")))],
     Raise (builtin ValueError))
  /\ params (API.weather_request
               (resolved Fixture.haifa (API.init "haifa" (PStr "three"))))
     !! "forecast_days" = Some (PStr "three").
Proof.
  apply (X16_day_count_checked_after_the_calls Fixture.http "haifa"
           (PStr "three") Fixture.haifa
           (dict_of
              [("hourly", PDict (dict_of
                  [("relative_humidity_2m", PList (PInt <$> Fixture.humidity));
                   ("cloud_cover", PList Fixture.cloud_cover)]));
               ("daily", PDict (dict_of
                  [("time", PList Fixture.time);
                   ("temperature_2m_max", PList Fixture.max_temp);
                   ("temperature_2m_min", PList Fixture.min_temp);
                   ("uv_index_max", PList Fixture.uv_index)]))])
           (builtin ValueError)).
  - reflexivity.
  - vm_compute. reflexivity.
  - reflexivity.
Defined.

(** X17: a forecast body that cannot be used is not reported as such. When
    the forecast call returns a body that is not an object, or an object
    without the [hourly] or the [daily] group (the service's own error
    answer, for one), [get_weather] raises after the two calls: the error
    of [int] when the body is an object and the day count is one that
    [int] rejects, and a bare [AttributeError] in every other case. *)
Theorem X17_unusable_forecast_body_error
    (http : oracle) (location : string) (days_num body : pyval)
    (geo : gmap string pyval) :
  first_result (http 0 (API.geo_request (API.init location days_num))) = Some geo ->
  http 1 (API.weather_request (resolved geo (API.init location days_num)))
  = Json body ->
  (forall top, body <> PDict top)
  \/ (exists top, body = PDict top
                  /\ (top !! "hourly" = None \/ top !! "daily" = None)) ->
  get_weather http location days_num []
  = ([API.geo_request (API.init location days_num);
      API.weather_request (resolved geo (API.init location days_num))],
     Raise (match body, py_int days_num with
            | PDict _, Raise e => e
            | _, _ => builtin AttributeError
            end)).
Proof.
  intros Hgeo Hf Hbody. rewrite get_weather_cases. cbn zeta.
  rewrite Hgeo, Hf.
  destruct Hbody as [Hno|(top & -> & Hgroup)].
  - destruct body; try reflexivity. exfalso. eapply Hno. reflexivity.
  - unfold Parser.init, WeatherData.init, Parser.get_time, Parser.get_uv_index,
      Parser.get_cloud_cover, Parser.get_max_temp, Parser.get_min_temp,
      Parser.get_humidity.
    cbn [py_get bindR Parser.hourly_data Parser.daily_data].
    destruct (py_int days_num) as [n|e]; [|reflexivity].
    cbn [bindR].
    destruct Hgroup as [-> | ->]; cbn [default py_get bindR].
    + destruct (top !! "daily") as [[]|]; reflexivity.
    + reflexivity.
Qed.

Lemma X17_witness :
  get_weather Scenario.http_rejecting "haifa" (PStr "20") []
  = ([API.geo_request (API.init "haifa" (PStr "20"));
      API.weather_request (resolved Fixture.haifa (API.init "haifa" (PStr "20")))],
     Raise (builtin AttributeError))
  /\ get_weather Scenario.http_rejecting "haifa" (PStr "three") []
     = ([API.geo_request (API.init "haifa" (PStr "three"));
         API.weather_request
           (resolved Fixture.haifa (API.init "haifa" (PStr "three")))],
        Raise (builtin ValueError)).
Proof.
  split.
  - apply (X17_unusable_forecast_body_error
             Scenario.http_rejecting "haifa" (PStr "20") Scenario.error_body
             Fixture.haifa).
    + vm_compute. reflexivity.
    + reflexivity.
    + right. eexists. split; [reflexivity|]. left. vm_compute. reflexivity.
  - apply (X17_unusable_forecast_body_error
             Scenario.http_rejecting "haifa" (PStr "three") Scenario.error_body
             Fixture.haifa).
    + vm_compute. reflexivity.
    + reflexivity.
    + right. eexists. split; [reflexivity|]. left. vm_compute. reflexivity.
Defined.

(** X18: the place named in the records is not the one the forecast was
    fetched for, unless the geocoding service repeats itself. When
    [get_weather] returns, every record carries as [country] the country
    of the answer to the third external call and as [city] the name of the
    answer to the fourth, while the coordinates of the forecast came from
    the first. *)
Theorem X18_country_and_city_from_later_lookups
    (http : oracle) (location : string) (days_num : pyval)
    (tr : trace) (out : list (gmap string pyval)) :
  get_weather http location days_num [] = (tr, Ok out) ->
  exists geo2 geo3,
    first_result (http 2 (API.geo_request (API.init location days_num))) = Some geo2
    /\ first_result (http 3 (API.geo_request (API.init location days_num))) = Some geo3
    /\ Forall (fun rec =>
                 rec !! "country" = Some (default PNone (geo2 !! "country"))
                 /\ rec !! "city" = Some (default PNone (geo3 !! "name"))) out.
Proof.
  rewrite get_weather_cases. cbn zeta.
  destruct (first_result (http 0 _)) as [geo|]; [|discriminate].
  destruct (http 1 _) as [cause|body]; [discriminate|].
  destruct (let! parsed := Parser.init body in _) as [days_list|e];
    [|discriminate].
  destruct (first_result (http 2 _)) as [geo2|]; [|discriminate].
  destruct (first_result (http 3 _)) as [geo3|]; [|discriminate].
  intros H. inversion H; subst. clear H.
  exists geo2, geo3. split; [reflexivity|]. split; [reflexivity|].
  unfold make_data_ready. apply Forall_fmap, Forall_forall. intros day _.
  destruct (day_element_fields (default PNone (geo2 !! "country"))
              (default PNone (geo3 !! "name")) day) as (Hc & Hn & _).
  split; assumption.
Qed.

Lemma X18_witness :
  exists geo2 geo3,
    first_result (Scenario.http_moving 2
                    (API.geo_request (API.init "haifa" (PInt 1)))) = Some geo2
    /\ first_result (Scenario.http_moving 3
                       (API.geo_request (API.init "haifa" (PInt 1)))) = Some geo3
    /\ Forall (fun rec =>
                 rec !! "country" = Some (default PNone (geo2 !! "country"))
                 /\ rec !! "city" = Some (default PNone (geo3 !! "name")))
              (make_data_ready
                 (day_records Fixture.time Fixture.uv_index Fixture.cloud_cover
                    Fixture.max_temp Fixture.min_temp Fixture.humidity 0 1)
                 (PStr "Israel") (PStr "Hefa")).
Proof.
  eapply (X18_country_and_city_from_later_lookups Scenario.http_moving
            "haifa" (PInt 1)).
  vm_compute. reflexivity.
Defined.

(** ** [app.py]: the history file *)

Lemma save_to_history_cases (timestamp location : string)
    (data : list (gmap string pyval)) (file : App.history_file) :
  App.save_to_history timestamp location data file
  = match file with
    | None => (Some (App.Doc (PList [App.log_entry timestamp location data])),
               Ok tt)
    | Some (App.Doc (PList l)) =>
        (Some (App.Doc (PList (l ++ [App.log_entry timestamp location data]))),
         Ok tt)
    | Some other => (Some other, Ok tt)
    end.
Proof.
  unfold App.save_to_history, try_except, bindM, getS, lift, putS, ret.
  destruct file as [[v|]|]; try reflexivity.
  destruct v; reflexivity.
Qed.

(** X19: [save_to_history] adds one entry at the end of the history and
    keeps every earlier entry, in order: a missing file becomes a list of
    that one entry, a file holding a list gets the entry appended; the
    entry holds the time stamp, the location and the data given. It never
    raises, whatever the file holds. *)
Theorem X19_save_to_history_appends
    (timestamp location : string) (data : list (gmap string pyval)) :
  App.save_to_history timestamp location data None
  = (Some (App.Doc (PList [App.log_entry timestamp location data])), Ok tt)
  /\ (forall l,
        App.save_to_history timestamp location data (Some (App.Doc (PList l)))
        = (Some (App.Doc (PList (l ++ [App.log_entry timestamp location data]))),
           Ok tt))
  /\ (forall file,
        snd (App.save_to_history timestamp location data file) = Ok tt)
  /\ (exists d, App.log_entry timestamp location data = PDict d
                /\ d !! "timestamp" = Some (PStr timestamp)
                /\ d !! "location" = Some (PStr location)
                /\ d !! "data" = Some (PList (PDict <$> data))).
Proof.
  split; [apply save_to_history_cases|].
  split; [intros l; apply save_to_history_cases|].
  split.
  - intros file. rewrite save_to_history_cases.
    destruct file as [[[]|]|]; reflexivity.
  - eexists. split; [reflexivity|].
    generalize (PList (PDict <$> data)). intros v.
    repeat split; vm_compute; reflexivity.
Qed.

(** X20: a history file that cannot be used is left alone. When the file
    holds a text that is not JSON, or a JSON document that is not a list,
    [save_to_history] changes nothing in it and raises nothing: the entry
    is dropped silently. *)
Theorem X20_unusable_history_left_untouched
    (timestamp location : string) (data : list (gmap string pyval))
    (content : App.file_content) :
  (forall l, content <> App.Doc (PList l)) ->
  App.save_to_history timestamp location data (Some content)
  = (Some content, Ok tt).
Proof.
  intros Hno. rewrite save_to_history_cases.
  destruct content as [v|]; [|reflexivity].
  destruct v; try reflexivity. exfalso. eapply Hno. reflexivity.
Qed.

Lemma X20_witness :
  App.save_to_history "2025-01-21 10:00:00 UTC" "haifa" [] (Some App.NotJson)
  = (Some App.NotJson, Ok tt).
Proof.
  apply (X20_unusable_history_left_untouched "2025-01-21 10:00:00 UTC"
           "haifa" [] App.NotJson).
  intros l. discriminate.
Defined.

(** X21: successive saves pile up in order. Starting from a history that
    holds the entries [l], saving one query after the other leaves the file
    with [l] followed by one entry per query, in the order of the calls. *)
Theorem X21_saves_accumulate_in_order
    (calls : list (string * string * list (gmap string pyval)))
    (l : list pyval) :
  foldl (fun file call =>
           fst (App.save_to_history call.1.1 call.1.2 call.2 file))
        (Some (App.Doc (PList l))) calls
  = Some (App.Doc (PList
            (l ++ ((fun call => App.log_entry call.1.1 call.1.2 call.2)
                     <$> calls)))).
Proof.
  revert l. induction calls as [|call calls IH]; intros l.
  - cbn [foldl fmap list_fmap]. rewrite app_nil_r. reflexivity.
  - cbn [foldl fmap list_fmap]. rewrite save_to_history_cases. cbn [fst].
    rewrite IH, <- app_assoc. reflexivity.
Qed.

(** ** [app.py]: the page handler *)

Lemma index_post_cases (http : oracle) (timestamp : string)
    (BG_COLOR : option string) (req : App.web_request) (location : string)
    (tr : trace) (h : App.history_file) :
  App.method req = App.POST ->
  App.form req !! "location" = Some location ->
  App.index http timestamp BG_COLOR req (tr, h)
  = match get_weather http location (App.form_get (App.form req) "days_num") tr with
    | (tr', Ok data) =>
        ((tr', fst (App.save_to_history timestamp location data h)),
         Ok (App.Page (Some data) None (App.bg_color BG_COLOR)))
    | (tr', Raise _) =>
        ((tr', h),
         Ok (App.Page None (Some "Invalid location. Please try again.")
                      (App.bg_color BG_COLOR)))
    end.
Proof.
  intros Hm Hloc. unfold App.index. rewrite Hm.
  unfold bindM at 1. unfold lift at 1, App.form_getitem. rewrite Hloc.
  unfold try_except, bindM, App.on_trace, App.on_history, ret. cbn [fst snd].
  destruct (get_weather http location _ tr) as [tr' [data|e]]; [|reflexivity].
  cbn [fst snd].
  pose proof (save_to_history_cases timestamp location data h) as Hs.
  destruct (App.save_to_history timestamp location data h) as [h' r].
  destruct h as [[[]|]|]; inversion Hs; reflexivity.
Qed.

(** X22: every failure of [get_weather] reaches the user as the same
    message. Whatever exception [get_weather] raises (location not found,
    forecast not fetched, unusable body, bad day count, short series), a
    POST with a [location] field is answered with the page whose [error] is
    [Invalid location. Please try again.] and no data; the history file is
    not touched; the external calls already made stay made. *)
Theorem X22_any_failure_shows_invalid_location
    (http : oracle) (timestamp : string) (BG_COLOR : option string)
    (req : App.web_request) (location : string)
    (tr tr' : trace) (h : App.history_file) (e : exn) :
  App.method req = App.POST ->
  App.form req !! "location" = Some location ->
  get_weather http location (App.form_get (App.form req) "days_num") tr
  = (tr', Raise e) ->
  App.index http timestamp BG_COLOR req (tr, h)
  = ((tr', h),
     Ok (App.Page None (Some "Invalid location. Please try again.")
                  (App.bg_color BG_COLOR))).
Proof.
  intros Hm Hloc Hw.
  rewrite (index_post_cases http timestamp BG_COLOR req location tr h Hm Hloc).
  rewrite Hw. reflexivity.
Qed.

Lemma X22_witness :
  App.index Scenario.http_no_forecast "2025-01-21 10:00:00 UTC" None
    (Scenario.post "haifa" "3") ([], None)
  = (([API.geo_request (API.init "haifa" (PStr "3"));
       API.weather_request (resolved Fixture.haifa (API.init "haifa" (PStr "3")))],
      None),
     Ok (App.Page None (Some "Invalid location. Please try again.")
                  (App.bg_color None))).
Proof.
  apply (X22_any_failure_shows_invalid_location Scenario.http_no_forecast
           "2025-01-21 10:00:00 UTC" None (Scenario.post "haifa" "3") "haifa"
           [] _ None
           (Exn ConnectionError
                (Some ("Failed to fetch weather data: " +:+ "timed out")))).
  - reflexivity.
  - vm_compute. reflexivity.
  - vm_compute. reflexivity.
Defined.

(** X23: a query that succeeds is shown and recorded once. When
    [get_weather] returns [data] for a POST, the page carries exactly this
    [data] and no error, and the history holds one more entry, at its end,
    with the location and the same [data]; a history file that cannot be
    used does not prevent the page. *)
Theorem X23_success_is_shown_and_recorded
    (http : oracle) (timestamp : string) (BG_COLOR : option string)
    (req : App.web_request) (location : string)
    (tr tr' : trace) (h : App.history_file)
    (data : list (gmap string pyval)) :
  App.method req = App.POST ->
  App.form req !! "location" = Some location ->
  get_weather http location (App.form_get (App.form req) "days_num") tr
  = (tr', Ok data) ->
  exists h',
    App.index http timestamp BG_COLOR req (tr, h)
    = ((tr', h'), Ok (App.Page (Some data) None (App.bg_color BG_COLOR)))
    /\ (h = None ->
        h' = Some (App.Doc (PList [App.log_entry timestamp location data])))
    /\ (forall l, h = Some (App.Doc (PList l)) ->
        h' = Some (App.Doc
                     (PList (l ++ [App.log_entry timestamp location data]))))
    /\ (forall c, h = Some c -> (forall l, c <> App.Doc (PList l)) -> h' = h).
Proof.
  intros Hm Hloc Hw.
  exists (fst (App.save_to_history timestamp location data h)).
  rewrite (index_post_cases http timestamp BG_COLOR req location tr h Hm Hloc).
  rewrite Hw. split; [reflexivity|].
  split; [intros ->; rewrite save_to_history_cases; reflexivity|].
  split; [intros l ->; rewrite save_to_history_cases; reflexivity|].
  intros c -> Hc. rewrite save_to_history_cases.
  destruct c as [[]|]; try reflexivity. exfalso. eapply Hc. reflexivity.
Qed.

Lemma X23_witness :
  exists h',
    App.index Fixture.http "2025-01-21 10:00:00 UTC" None
      (Scenario.post "haifa" "1") ([], None)
    = (([API.geo_request (API.init "haifa" (PStr "1"));
         API.weather_request (resolved Fixture.haifa (API.init "haifa" (PStr "1")));
         API.geo_request (API.init "haifa" (PStr "1"));
         API.geo_request (API.init "haifa" (PStr "1"))], h'),
       Ok (App.Page
             (Some (make_data_ready
                      (day_records Fixture.time Fixture.uv_index
                         Fixture.cloud_cover Fixture.max_temp Fixture.min_temp
                         Fixture.humidity 0 1)
                      (PStr "Israel") (PStr "Haifa")))
             None (App.bg_color None)))
    /\ (@None App.file_content = None ->
        h' = Some (App.Doc (PList [App.log_entry "2025-01-21 10:00:00 UTC" "haifa"
                     (make_data_ready
                        (day_records Fixture.time Fixture.uv_index
                           Fixture.cloud_cover Fixture.max_temp Fixture.min_temp
                           Fixture.humidity 0 1)
                        (PStr "Israel") (PStr "Haifa"))])))
    /\ (forall l, None = Some (App.Doc (PList l)) ->
        h' = Some (App.Doc
                     (PList (l ++ [App.log_entry "2025-01-21 10:00:00 UTC" "haifa"
                     (make_data_ready
                        (day_records Fixture.time Fixture.uv_index
                           Fixture.cloud_cover Fixture.max_temp Fixture.min_temp
                           Fixture.humidity 0 1)
                        (PStr "Israel") (PStr "Haifa"))]))))
    /\ (forall c, None = Some c -> (forall l, c <> App.Doc (PList l)) ->
        h' = None).
Proof.
  apply (X23_success_is_shown_and_recorded Fixture.http
           "2025-01-21 10:00:00 UTC" None (Scenario.post "haifa" "1") "haifa"
           [] _ None _).
  - reflexivity.
  - vm_compute. reflexivity.
  - vm_compute. reflexivity.
Defined.

(** X24: nothing happens without a query. A GET is answered with the page
    without data and without error; a POST that has no [location] field
    raises [KeyError] before anything else is done. In both cases no
    external call is made and the history file is not touched. *)
Theorem X24_no_query_no_effect
    (http : oracle) (timestamp : string) (BG_COLOR : option string)
    (req : App.web_request) (tr : trace) (h : App.history_file) :
  match App.method req with
  | App.GET =>
      App.index http timestamp BG_COLOR req (tr, h)
      = ((tr, h), Ok (App.Page None None (App.bg_color BG_COLOR)))
  | App.POST =>
      App.form req !! "location" = None ->
      App.index http timestamp BG_COLOR req (tr, h)
      = ((tr, h), Raise (builtin KeyError))
  end.
Proof.
  unfold App.index. destruct (App.method req); [reflexivity|].
  intros Hloc. unfold bindM at 1. unfold lift at 1, App.form_getitem.
  rewrite Hloc. reflexivity.
Qed.
